(** * postforward: a Postfix forwarding filter

    Shallow embedding of [postforward.go] and the properties its
    specification states about it.

    Go [string]s are modelled as [string] (a sequence of 8-bit characters),
    [[]byte] and byte streams as [list byte], Go [int] as [Z] (no length in
    this program comes near the 64-bit bound).  Writes to the standard
    streams, process launches, [os.Exit] and run-time panics are threaded
    through the small monad [Proc]. *)

From Stdlib Require Import Bool ZArith Lia Ascii String.
From Stdlib Require Import Strings.Byte List.
From Stdlib Require DecimalString.
From Equations Require Import Equations.
Import ListNotations.

Local Open Scope string_scope.
Local Open Scope list_scope.

(** ** Bytes *)

Definition bytes := list byte.

(** [[]byte("...")] *)
Definition B (s : string) : bytes := list_byte_of_string s.

(** [string(b)] *)
Definition S_ (b : bytes) : string := string_of_list_byte b.

Definition LF : byte := x0a.
Definition CR : byte := x0d.

(** [bytes.Equal] *)
Fixpoint Equal (a b : bytes) : bool :=
  match a, b with
  | [], [] => true
  | x :: a', y :: b' => Byte.eqb x y && Equal a' b'
  | _, _ => false
  end.

(** [bytes.HasPrefix]:
    [len(s) >= len(prefix) && Equal(s[:len(prefix)], prefix)] *)
Definition HasPrefix (s prefix : bytes) : bool :=
  (length prefix <=? length s)%nat && Equal (firstn (length prefix) s) prefix.

(** [bytes.HasSuffix]:
    [len(s) >= len(suffix) && Equal(s[len(s)-len(suffix):], suffix)] *)
Definition HasSuffix (s suffix : bytes) : bool :=
  (length suffix <=? length s)%nat &&
  Equal (skipn (length s - length suffix) s) suffix.

(** ** Exit codes, as in [<sysexits.h>] *)

Definition ExDataErr : Z := 65.
Definition ExTempFail : Z := 75.

(** ** Processes: effects of the program on the outside world *)

Inductive Event : Type :=
| Stderr (s : string)                  (* a write to the diagnostic stream *)
| Stdout (b : bytes)                   (* a write to standard output *)
| ExecPostconf                         (* [postconf -h myhostname] was run *)
| ExecSendmail (name : string) (args : list string) (stdin : bytes).
                                       (* the delivery program was run *)

Inductive Outcome (A : Type) : Type :=
| Ret (a : A)                          (* the call returned [a] *)
| Exited (code : Z)                    (* [os.Exit(code)] *)
| Panicked (msg : string).             (* run-time panic *)
Arguments Ret {A} a.
Arguments Exited {A} code.
Arguments Panicked {A} msg.

Definition Proc (A : Type) : Type := (list Event * Outcome A)%type.

Definition ret {A} (a : A) : Proc A := ([], Ret a).

Definition bind {A C} (m : Proc A) (k : A -> Proc C) : Proc C :=
  match m with
  | (tr, Ret a) => let '(tr', o) := k a in (tr ++ tr', o)
  | (tr, Exited c) => (tr, Exited c)
  | (tr, Panicked msg) => (tr, Panicked msg)
  end.

Notation "x <- m ;; k" := (bind m (fun x => k))
  (at level 61, m at next level, right associativity).
Notation "m ;;; k" := (bind m (fun _ => k))
  (at level 61, right associativity).

Definition emit (e : Event) : Proc unit := ([e], Ret tt).
Definition exit {A} (code : Z) : Proc A := ([], Exited code).
Definition panic {A} (msg : string) : Proc A := ([], Panicked msg).

Definition trace {A} (m : Proc A) : list Event := fst m.
Definition outcome {A} (m : Proc A) : Outcome A := snd m.

Definition nl : string := String "010"%char "".

(** [die] writes [msg] to stderr and aborts the program with the given
    status code. *)
Definition die {A} (msg : string) (code : Z) : Proc A :=
  emit (Stderr (msg ++ nl)%string) ;;; exit code.

(** ** Readers *)

(** What a reader answers once its data is exhausted. *)
Inductive ioerr : Type :=
| EOF
| ErrRead (msg : string).

(** An [io.Reader]: the bytes it still has to deliver, and the condition it
    reports after them.  A [bytes.Buffer] reports [EOF]. *)
Record Reader : Type := mkReader { unread : bytes; at_end : ioerr }.

Definition NewBuffer (b : bytes) : Reader := mkReader b EOF.

(** Scan for the delimiter: the bytes up to and including it and the bytes
    after it, or [None] when the delimiter does not occur. *)
Fixpoint cut_after (delim : byte) (data : bytes) : option (bytes * bytes) :=
  match data with
  | [] => None
  | c :: data' =>
      if Byte.eqb c delim then Some ([c], data')
      else match cut_after delim data' with
           | Some (line, rest) => Some (c :: line, rest)
           | None => None
           end
  end.

(** [bufio.Reader.ReadBytes(delim)]: reads until the first occurrence of
    [delim], returning the bytes up to and including it; when the reader
    runs out first, returns what was read together with the reader's
    condition. *)
Definition ReadBytes (r : Reader) (delim : byte)
  : bytes * Reader * option ioerr :=
  match cut_after delim (unread r) with
  | Some (line, rest) => (line, mkReader rest (at_end r), None)
  | None => (unread r, mkReader [] (at_end r), Some (at_end r))
  end.

(** ** Header rewriting *)

(** [guessLineEnding] guesses the line ending to use from the one used in
    the supplied input line. *)
Definition guessLineEnding (line : bytes) : bytes :=
  if HasSuffix line [CR; LF] then [CR; LF] else [LF].

(** The loop [for _, header := range headers] of [headerRewriter]:
    [buffer.WriteString(header); buffer.Write(lineEnding)]. *)
Fixpoint write_headers (buffer : bytes) (headers : list string)
    (lineEnding : bytes) : bytes :=
  match headers with
  | [] => buffer
  | header :: headers' =>
      write_headers ((buffer ++ B header) ++ lineEnding) headers' lineEnding
  end.

Definition inspect {A} (a : A) : {b : A | a = b} := exist _ a eq_refl.

(** The [for] loop of [headerRewriter]; [linenum] is the counter's value on
    entry to the iteration. *)
Equations? headerRewriter_loop (reader : Reader) (linenum : Z)
    (buffer : bytes) (headers : list string) : Proc bytes
    by wf (length (unread reader)) lt :=
  headerRewriter_loop reader linenum0 buffer headers
    with inspect (ReadBytes reader LF) := {
    | exist _ (line, reader', Some EOF) _ :=
        ret (buffer ++ line)
    | exist _ (line, reader', Some (ErrRead e)) _ :=
        die ("Unexpected error occurred while reading input: " ++ e)%string
            ExTempFail
    | exist _ (line, reader', None) Hread :=
        let linenum := (linenum0 + 1)%Z in
        let buffer1 :=
          if (linenum =? 1)%Z
          then write_headers buffer headers (guessLineEnding line)
          else buffer in
        if (linenum =? 1)%Z && HasPrefix line (B "From ")
        then headerRewriter_loop reader' linenum buffer1 headers
        else if HasPrefix line (B "From: ")
        then headerRewriter_loop reader' linenum buffer1 headers
        else headerRewriter_loop reader' linenum (buffer1 ++ line) headers
  }.
Proof.
  all: clear - Hread; unfold ReadBytes in Hread;
    destruct (cut_after LF (unread reader)) as [[ln rest]|] eqn:Hcut;
    [injection Hread as <- <-; cbn [unread] | discriminate];
    revert ln rest Hcut; generalize (unread reader) as data;
    induction data as [|c data IH]; intros ln rest; cbn [cut_after];
    [discriminate|];
    destruct (Byte.eqb c LF); [intros [= <- <-]; cbn; lia|];
    destruct (cut_after LF data) as [[ln' rest']|]; [|discriminate];
    intros [= <- <-]; specialize (IH _ _ eq_refl); cbn [length]; lia.
Qed.

(** [headerRewriter] wraps the given reader and performs header rewriting on
    read data: it strips the [From sender time_stamp] envelope header and
    adds the supplied headers.  The result is the content of the buffer the
    returned reader delivers. *)
Definition headerRewriter (in_ : Reader) (headers : list string)
  : Proc bytes :=
  headerRewriter_loop in_ 0 [] headers.


(** One turn of the loop, as an ordinary equation. *)
Definition headerRewriter_step (reader : Reader) (linenum0 : Z)
    (buffer : bytes) (headers : list string) : Proc bytes :=
  match ReadBytes reader LF with
  | (line, _, Some EOF) => ret (buffer ++ line)
  | (line, _, Some (ErrRead e)) =>
      die ("Unexpected error occurred while reading input: " ++ e)%string
          ExTempFail
  | (line, reader', None) =>
      let linenum := (linenum0 + 1)%Z in
      let buffer1 :=
        if (linenum =? 1)%Z
        then write_headers buffer headers (guessLineEnding line)
        else buffer in
      if (linenum =? 1)%Z && HasPrefix line (B "From ")
      then headerRewriter_loop reader' linenum buffer1 headers
      else if HasPrefix line (B "From: ")
      then headerRewriter_loop reader' linenum buffer1 headers
      else headerRewriter_loop reader' linenum (buffer1 ++ line) headers
  end.


(** ** Lines of a byte stream

    A line is the bytes up to and including the next line feed, or the
    final bytes of the stream when no line feed follows them. *)

(** The terminated lines of a stream, in order, and the unterminated bytes
    after the last of them. *)
Fixpoint split_lines (data : bytes) : list bytes * bytes :=
  match data with
  | [] => ([], [])
  | c :: data' =>
      let '(ls, tail) := split_lines data' in
      if Byte.eqb c LF then ([c] :: ls, tail)
      else match ls with
           | [] => ([], c :: tail)
           | l :: ls' => ((c :: l) :: ls', tail)
           end
  end.

Definition full_lines (data : bytes) : list bytes := fst (split_lines data).
Definition last_partial (data : bytes) : bytes := snd (split_lines data).

(** All lines of the stream: the terminated ones, then the final
    unterminated one when it is not empty. *)
Definition lines (data : bytes) : list bytes :=
  full_lines data ++
  match last_partial data with [] => [] | _ :: _ => [last_partial data] end.

Definition count_lines (data : bytes) : nat := length (lines data).

(** Line 1 of the stream ([[]] for the empty stream). *)
Definition line1 (data : bytes) : bytes := hd [] (lines data).

Definition terminated (line : bytes) : bool := HasSuffix line [LF].

(** What [headerRewriter] leaves of the lines after line 1. *)
Definition keep_line (line : bytes) : bool := negb (HasPrefix line (B "From: ")).

(** The synthesized header block: every header followed by the line
    ending. *)
Definition header_block (headers : list string) (lineEnding : bytes) : bytes :=
  concat (map (fun header => B header ++ lineEnding) headers).

(** [headerRewriter], line by line. *)
Definition rewritten (data : bytes) (headers : list string) : bytes :=
  match full_lines data with
  | [] => last_partial data
  | l1 :: ls =>
      header_block headers (guessLineEnding l1) ++
      (if HasPrefix l1 (B "From ") || HasPrefix l1 (B "From: ")
       then [] else l1) ++
      concat (filter keep_line ls) ++ last_partial data
  end.

(** ** The SRS lookup *)

(** An [error] value, by its [Error()] text. *)
Definition error := string.

(** [fmt]'s [%d]. *)
Definition itoa (n : Z) : string :=
  DecimalString.NilZero.string_of_int (Z.to_int n).

(** The digit loop of [strconv.Atoi]: [ch -= '0'; if ch > 9 { error };
    n = n*10 + int(ch)]. *)
Fixpoint atoi_digits (s : string) (n : Z) : option Z :=
  match s with
  | EmptyString => Some n
  | String ch s' =>
      let c := Z.of_N (N_of_ascii ch) in
      if (48 <=? c)%Z && (c <=? 57)%Z
      then atoi_digits s' (n * 10 + (c - 48))%Z
      else None
  end.

(** [strconv.Atoi], on inputs of 1 to 9 bytes (its path for small
    integers; the only call here passes 3 bytes). *)
Definition Atoi (s0 : string) : option Z :=
  match s0 with
  | EmptyString => None
  | String c s' =>
      if Ascii.eqb c "-" then
        match s' with
        | EmptyString => None
        | _ => option_map Z.opp (atoi_digits s' 0)
        end
      else if Ascii.eqb c "+" then
        match s' with
        | EmptyString => None
        | _ => atoi_digits s' 0
        end
      else atoi_digits s0 0
  end.

Definition is_byte (o : option ascii) (c : ascii) : bool :=
  match o with Some x => Ascii.eqb x c | None => false end.

(** [s[lo:]] for [lo <= len(s)]. *)
Definition from_index (s : string) (lo : nat) : string :=
  substring lo (String.length s - lo) s.

(** [textproto]'s [parseCodeLine]: the results [code], [continued],
    [message] and [err]. *)
Definition parseCodeLine (line : string) (expectCode : Z)
  : Z * bool * string * option error :=
  if (String.length line <? 4)%nat ||
     (negb (is_byte (get 3 line) " ") && negb (is_byte (get 3 line) "-"))
  then (0%Z, false, "", Some ("short response: " ++ line)%string)
  else
    let continued := is_byte (get 3 line) "-" in
    match Atoi (substring 0 3 line) with
    | None => (0%Z, continued, "", Some ("invalid response code: " ++ line)%string)
    | Some code =>
        if (code <? 100)%Z
        then (code, continued, "", Some ("invalid response code: " ++ line)%string)
        else
          let message := from_index line 4 in
          if ((1 <=? expectCode) && (expectCode <? 10) &&
                negb (code / 100 =? expectCode) ||
              (10 <=? expectCode) && (expectCode <? 100) &&
                negb (code / 10 =? expectCode) ||
              (100 <=? expectCode) && (expectCode <? 1000) &&
                negb (code =? expectCode))%Z
          then (code, continued, message,
                Some (itoa code ++ " " ++ message)%string)
          else (code, continued, message, None)
    end.

(** What happens when a client dials an address and calls [Cmd] with a
    format string and no arguments ([Cmd] prints the format, so the line
    sent is that string whenever it holds no [%]). *)
Inductive Exchange : Type :=
| DialFails (err : error)
| CmdFails (err : error)
| ReadFails (err : error)
| Replies (line : string).   (* one response line, its terminator removed *)

Definition Network := string -> string -> Exchange.

(** [textproto.Reader.ReadCodeLine] on a line that was read. *)
Definition ReadCodeLine (line : string) (expectCode : Z)
  : Z * string * option error :=
  let '(code, continued, message, err) := parseCodeLine line expectCode in
  match err with
  | None =>
      if continued
      then (code, message,
            Some ("unexpected multi-line response: " ++ message)%string)
      else (code, message, None)
  | Some e => (code, message, Some e)
  end.

(** [lookupTCP] performs a TCP table lookup for the specified key against
    the given address. *)
Definition lookupTCP (net : Network) (addr key : string)
  : Proc (string * option error) :=
  match net addr ("get " ++ key)%string with
  | DialFails err => ret ("", Some err)
  | CmdFails err => ret ("", Some err)
  | ReadFails err => ret ("", Some err)
  | Replies line =>
      match ReadCodeLine line (-1) with
      | (_, _, Some err) => ret ("", Some err)
      | (code, msg, None) =>
          if (code =? 200)%Z then ret (msg, None)
          else if (code =? 500)%Z then
            emit (Stderr ("warning: srs: returncode 500 (" ++ msg ++ ")" ++ nl)%string) ;;;
            ret (key, None)
          else
            ret ("", Some ("srs: unexpected returncode " ++ itoa code ++
                           " (" ++ msg ++ ")")%string)
      end
  end.

(** ** Flags and the world outside the program *)

(** The command line: the five flags and [flag.Args()]. *)
Record Flags : Type := mkFlags {
  dryRun : bool;
  path : string;
  rpHeader : string;
  sendmailPath : string;
  srsAddr : string;
  Args : list string
}.

(** A parsed [mail.Header], seen through its [Get] method: the first value
    stored under the key, or [""] when there is none. *)
Definition Header := string -> string.

Definition Get (h : Header) (key : string) : string := h key.

(** The collaborators of one run. *)
Record World : Type := mkWorld {
  (** what the successive reads of standard input deliver *)
  stdin_reads : list bytes;
  (** [net/mail]'s reading of the header lines in the bytes it was given *)
  readHeader : bytes -> error + Header;
  (** outcome of [postconf -h myhostname]: an error, or its output *)
  postconf : error + bytes;
  (** [os.Hostname()] *)
  os_hostname : string;
  (** [time.Now().Format("Mon, 2 Jan 2006 15:04:05 -0700")] *)
  now : string;
  (** the SRS service *)
  srs : Network;
  (** outcome of running the delivery program on a standard input *)
  sendmail_run : string -> list string -> bytes -> option error
}.

(** *** Library calls of [main] *)

Fixpoint has_char (c : ascii) (s : string) : bool :=
  match s with
  | EmptyString => false
  | String x s' => Ascii.eqb x c || has_char c s'
  end.

(** [os.Setenv]: rejects an empty key, a key with [=] or NUL in it, and a
    value with NUL in it. *)
Definition Setenv (key value : string) : option error :=
  if (key =? "")%string || has_char "=" key || has_char "000" key
     || has_char "000" value
  then Some "setenv: invalid argument"
  else None.

Definition asciiSpace (c : byte) : bool :=
  match c with
  | x09 | x0a | x0b | x0c | x0d | x20 => true
  | _ => false
  end.

Fixpoint trim_left (b : bytes) : bytes :=
  match b with
  | c :: b' => if asciiSpace c then trim_left b' else b
  | [] => []
  end.

(** [bytes.TrimSpace], for data whose first and last bytes after trimming
    are ASCII (the non-ASCII white space of Unicode is not modelled). *)
Definition TrimSpace (b : bytes) : bytes :=
  rev (trim_left (rev (trim_left b))).

(** A header section is complete once a line holding nothing but its
    terminator has been read. *)
Definition blank_line (line : bytes) : bool :=
  Equal line [LF] || Equal line [CR; LF].

Definition header_complete (b : bytes) : bool :=
  existsb blank_line (full_lines b).

(** [mail.ReadMessage(io.TeeReader(os.Stdin, &buffer))], as far as standard
    input and the buffer go.  [ReadMessage] reads through a [bufio.Reader]:
    each time the header parser needs bytes that are not buffered yet, one
    read of standard input is made, with room for up to 4096 bytes, and the
    tee copies all of what that read delivers into [buffer], whatever the
    parser then consumes of it.  No read is made once the blank line that
    ends the header section is buffered (a parse that fails stops reading
    earlier; [main] does not use the buffer then).  The result is [buffer]
    and the reads that standard input still holds. *)
Fixpoint tee_reads (buffer : bytes) (reads : list bytes)
  : bytes * list bytes :=
  match reads with
  | [] => (buffer, [])
  | chunk :: reads' =>
      let buffer' := buffer ++ chunk in
      if header_complete buffer' then (buffer', reads')
      else tee_reads buffer' reads'
  end.

Definition ReadMessage (w : World) : (error + Header) * bytes * list bytes :=
  let '(buffer, reads') := tee_reads [] (stdin_reads w) in
  (readHeader w buffer, buffer, reads').

(** [s[lo:hi]], with Go's bounds check. *)
Definition slice (s : string) (lo hi : Z) : Proc string :=
  let len := Z.of_nat (String.length s) in
  if (hi <? 0)%Z || (len <? hi)%Z then
    panic ("runtime error: slice bounds out of range [:" ++ itoa hi ++
           "] with length " ++ itoa len)%string
  else if (lo <? 0)%Z || (hi <? lo)%Z then
    panic ("runtime error: slice bounds out of range [" ++ itoa lo ++ ":" ++
           itoa hi ++ "]")%string
  else ret (substring (Z.to_nat lo) (Z.to_nat (hi - lo)) s).

(** [fmt]'s [%v] of a [[]string]. *)
Definition show_args (args : list string) : string :=
  ("[" ++ String.concat " " args ++ "]")%string.

(** [getHostname] returns the system hostname. It tries to get the value
    from postfix, falling back to [os.Hostname()] when that fails. *)
Definition getHostname (w : World) : Proc string :=
  emit ExecPostconf ;;;
  match postconf w with
  | inl err =>
      emit (Stderr ("warning: unable to get hostname from postfix (" ++
                    err ++ ")" ++ nl)%string) ;;;
      ret (os_hostname w)
  | inr out => ret (S_ (TrimSpace out))
  end.

(** *** [main] *)

Definition main (fl : Flags) (w : World) : Proc unit :=
  (if negb (path fl =? "")%string then
     match Setenv "PATH" (path fl) with
     | Some err => die ("Unable to set $PATH: " ++ err)%string ExTempFail
     | None => ret tt
     end
   else ret tt) ;;;

  let '(parsed, buffer, stdin_rest) := ReadMessage w in
  match parsed with
  | inl err => die ("Parse error: " ++ err)%string ExDataErr
  | inr message =>
      let returnPath := Get message (rpHeader fl) in
      (if (returnPath =? "")%string
       then die "Parse error: Missing return-path header in message" ExDataErr
       else ret tt) ;;;

      let fromName := Get message "From" in
      let fromName :=
        if (fromName =? "")%string then "unknown (forwarded)"
        else (fromName ++ " (forwarded)")%string in

      hostname <- getHostname w ;;
      let extraHeaders :=
        [ ("Received: by " ++ hostname ++ " (Postforward); " ++ now w)%string;
          ("X-Original-Return-Path: " ++ returnPath)%string ] in

      returnPath <-
        slice returnPath 1 (Z.of_nat (String.length returnPath) - 1) ;;
      looked <- lookupTCP (srs w) (srsAddr fl) returnPath ;;
      let '(returnPath, err) := looked in
      match err with
      | Some e => die ("SRS lookup error: " ++ e)%string ExTempFail
      | None =>
          head <- headerRewriter (NewBuffer buffer) extraHeaders ;;
          let mailreader := head ++ concat stdin_rest in
          let args := ["-i"; "-f"; returnPath; "-F"; fromName] ++ Args fl in
          if dryRun fl then
            emit (Stdout (B ("Would call sendmail with args: " ++
                             show_args args ++ nl)%string)) ;;;
            emit (Stdout (B ("Would pipe the following data into sendmail:" ++
                             nl ++ nl)%string)) ;;;
            emit (Stdout mailreader) ;;;
            exit 0
          else
            emit (ExecSendmail (sendmailPath fl) args mailreader) ;;;
            match sendmail_run w (sendmailPath fl) args mailreader with
            | Some e =>
                die ("Error delivering message to sendmail: " ++ e)%string
                    ExTempFail
            | None => ret tt
            end
      end
  end.

(** The status the process ends with: that of [os.Exit], 0 when [main]
    returns, 2 after a panic. *)
Definition exit_status (m : Proc unit) : Z :=
  match outcome m with
  | Ret _ => 0
  | Exited code => code
  | Panicked _ => 2
  end.

Definition is_delivery (e : Event) : bool :=
  match e with ExecSendmail _ _ _ => true | _ => false end.

(** Was the delivery program invoked? *)
Definition delivered (m : Proc unit) : bool := existsb is_delivery (trace m).

(** * Vocabulary of the properties *)

(** A well-formed terminated line: bytes without a line feed, then one. *)
Definition wf_line (line : bytes) : Prop :=
  exists body, line = body ++ [LF] /\ ~ In LF body.

(** A header that holds no line feed makes one line of the header block. *)
Definition one_line (header : string) : Prop := ~ In LF (B header).

(** The number of lines of the input that begin with the removal prefix
    [From: ], counted as the specification counts them. *)
Definition from_lines (data : bytes) : nat :=
  length (filter (fun l => HasPrefix l (B "From: ")) (lines data)).

(** The same, among the lines that end with a line feed. *)
Definition from_lines_terminated (data : bytes) : nat :=
  length (filter (fun l => terminated l && HasPrefix l (B "From: "))
                 (lines data)).

(** 1 when line 1 begins with the envelope prefix. *)
Definition envelope_lines (data : bytes) : nat :=
  if HasPrefix (line1 data) (B "From ") then 1 else 0.

(** The count as the specification states it, for every input. *)
Definition line_count_as_stated (data : bytes) (headers : list string) : Prop :=
  forall out, headerRewriter (NewBuffer data) headers = ret out ->
    count_lines out =
    (length headers + count_lines data - envelope_lines data - from_lines data)%nat.

Definition CRLF : bytes := [CR; LF].

(** C4 as stated, for an input that is one line without terminator: the
    synthesized headers are written and both removal rules are applied to
    the line. *)
Definition single_line_as_stated (line : bytes) (headers : list string) : Prop :=
  headerRewriter (NewBuffer line) headers =
  ret (header_block headers (guessLineEnding line) ++
       (if HasPrefix line (B "From ") || HasPrefix line (B "From: ")
        then [] else line)).

(** The round trip as the specification states it. *)
Definition roundtrip_as_stated (data : bytes) (headers : list string) : Prop :=
  HasPrefix (line1 data) (B "From ") = false ->
  from_lines data = 0%nat ->
  headerRewriter (NewBuffer data) headers =
  ret (header_block headers (guessLineEnding (line1 data)) ++ data).

(** The terminator the specification states: that of line 1. *)
Definition stated_line_ending (data : bytes) : bytes :=
  if HasSuffix (line1 data) CRLF then CRLF else [LF].

Definition line_ending_as_stated (data : bytes) (headers : list string) : Prop :=
  exists rest,
    headerRewriter (NewBuffer data) headers =
    ret (header_block headers (stated_line_ending data) ++ rest).

(** The lines of [ls] whose position, counted from [i], is kept. *)
Fixpoint select (keep : nat -> bool) (i : nat) (ls : list bytes) : list bytes :=
  match ls with
  | [] => []
  | l :: ls' =>
      if keep i then l :: select keep (S i) ls' else select keep (S i) ls'
  end.

(** A three-digit code prints as three bytes that [Atoi] reads back. *)
Definition prints_and_parses (n : nat) : bool :=
  let code := (Z.of_nat n + 100)%Z in
  match itoa code with
  | String a (String b (String c EmptyString)) =>
      match Atoi (String a (String b (String c EmptyString))) with
      | Some v => (v =? code)%Z
      | None => false
      end
  | _ => false
  end.

(** * Example inputs and runs *)

(** The message of the specification's scenario. *)
Definition scenario_input : bytes :=
  B "From x@y.com Mon Jan 1" ++ CRLF ++ B "From: Alice <a@b>" ++ CRLF ++
  B "Subject: hi" ++ CRLF ++ CRLF ++ B "body".

Definition scenario_headers : list string :=
  ["Received: by mail.example.org (Postforward); Mon, 1 Jan 2024 00:00:00 +0000";
   "X-Original-Return-Path: <x@y.com>"].

Ltac one_line_headers :=
  repeat constructor; unfold one_line; vm_compute; intuition discriminate.

Definition two_envelopes : bytes :=
  B "From a@b Mon Jan 1" ++ [LF] ++ B "From c@d Tue Jan 2" ++ [LF].

Definition scattered_from_lines : bytes :=
  B "From:Alice" ++ [LF] ++ B "from: alice" ++ [LF] ++ B "From: Bob" ++ [LF].

Definition srs_example (reply : string) : Network :=
  fun addr cmd =>
    if ((addr =? "localhost:10001") && (cmd =? "get x@y.com"))%string
    then Replies reply else DialFails "dial tcp: connection refused".

Definition example_flags (dry : bool) : Flags :=
  mkFlags dry "" "Return-Path" "sendmail" "localhost:10001" ["user@example.net"].

(** A header section with the given [Return-Path] and [From] and nothing
    else. *)
Definition header_of (returnPath from : string) : Header :=
  fun key =>
    if (key =? "Return-Path")%string then returnPath
    else if (key =? "From")%string then from
    else "".

Definition example_world (reads : list bytes) (parsed : error + Header)
    (net : Network) : World :=
  mkWorld reads (fun _ => parsed) (inr (B "mail.example.org" ++ [LF]))
          "localhost" "Mon, 1 Jan 2024 00:00:00 +0000" net
          (fun _ _ _ => None).

(** A resolver that answers 200 with the command it was sent. *)
Definition srs_echo : Network := fun _ cmd => Replies ("200 " ++ cmd)%string.

Definition message_with_body : bytes :=
  B "Return-Path: <x@y.com>" ++ [LF] ++ B "Subject: hi" ++ [LF] ++ [LF] ++
  B "From: the team" ++ [LF] ++ B "bye" ++ [LF].

Definition world_with_body : World :=
  example_world [message_with_body] (inr (header_of "<x@y.com>" ""))
                (srs_example "200 x@y.com").

Definition world_unbracketed : World :=
  example_world [B "Return-Path: x@y.com" ++ [LF] ++ [LF] ++ B "body" ++ [LF]]
                (inr (header_of "x@y.com" "")) srs_echo.

Definition world_missing_header : World :=
  example_world [B "Subject: hi" ++ [LF] ++ [LF] ++ B "body" ++ [LF]]
                (inr (header_of "" "")) (srs_example "200 x@y.com").

Definition world_refused : World :=
  example_world [message_with_body] (inr (header_of "<x@y.com>" ""))
    (fun _ _ => DialFails "dial tcp 127.0.0.1:10001: connect: connection refused").

Definition world_one_char : World :=
  example_world [B "Return-Path: x" ++ [LF] ++ [LF] ++ B "body" ++ [LF]]
                (inr (header_of "x" "")) (srs_example "200 x@y.com").

(** * Vocabulary of the further properties *)

(** The flags with the dry-run toggle set to [b]. *)
Definition with_dryRun (b : bool) (fl : Flags) : Flags :=
  mkFlags b (path fl) (rpHeader fl) (sendmailPath fl) (srsAddr fl) (Args fl).

(** The full name [main] passes to the delivery program with [-F]. *)
Definition fromName_of (h : Header) : string :=
  if (Get h "From" =? "")%string then "unknown (forwarded)"
  else (Get h "From" ++ " (forwarded)")%string.

(** The two headers [main] synthesizes. *)
Definition extraHeaders_of (hostname now returnPath : string) : list string :=
  [ ("Received: by " ++ hostname ++ " (Postforward); " ++ now)%string;
    ("X-Original-Return-Path: " ++ returnPath)%string ].

(** The arguments [main] builds for the delivery program. *)
Definition sendmail_args (fl : Flags) (h : Header) (resolved : string)
  : list string :=
  ["-i"; "-f"; resolved; "-F"; fromName_of h] ++ Args fl.

(** [s[1 : len(s)-1]], the key [main] extracts from the return path. *)
Definition strip_ends (s : string) : Proc string :=
  slice s 1 (Z.of_nat (String.length s) - 1).

(** An ASCII byte that is not white space. *)
Definition visible (c : byte) : bool :=
  (Byte.to_N c <? 128)%N && negb (asciiSpace c).

(** A machine where [postconf] cannot be run. *)
Definition world_without_postconf : World :=
  mkWorld [message_with_body] (fun _ => inr (header_of "<x@y.com>" ""))
          (inl "exec: postconf: not found") "localhost"
          "Mon, 1 Jan 2024 00:00:00 +0000" (srs_example "200 x@y.com")
          (fun _ _ _ => None).

(** A run whose resolver has no entry for the address. *)
Definition world_soft_miss : World :=
  example_world [message_with_body] (inr (header_of "<x@y.com>" "Alice"))
                (srs_example "500 anything").

(** * Properties *)

(** ** The loop of [headerRewriter] *)

Lemma cut_after_shorter delim data line rest :
  cut_after delim data = Some (line, rest) ->
  (length rest < length data)%nat.
Proof.
  revert line rest; induction data as [|c data IH]; intros line rest; simpl.
  - discriminate.
  - destruct (Byte.eqb c delim).
    + intros [= <- <-]. lia.
    + destruct (cut_after delim data) as [[l r]|]; [|discriminate].
      intros [= <- <-]. specialize (IH _ _ eq_refl). lia.
Qed.

Lemma headerRewriter_loop_eq reader linenum0 buffer headers :
  headerRewriter_loop reader linenum0 buffer headers =
  headerRewriter_step reader linenum0 buffer headers.
Proof.
  unfold headerRewriter_step.
  simp headerRewriter_loop.
  destruct (inspect (ReadBytes reader LF)) as [[[line r'] [[|e]|]] Heq];
    simp headerRewriter_loop; rewrite Heq; reflexivity.
Qed.

Lemma split_lines_cut_some data line rest :
  cut_after LF data = Some (line, rest) ->
  split_lines data = (line :: full_lines rest, last_partial rest).
Proof.
  unfold full_lines, last_partial.
  revert line rest; induction data as [|c data IH]; intros line rest; simpl.
  - discriminate.
  - destruct (Byte.eqb c LF) eqn:Ec.
    + intros [= <- <-]. destruct (split_lines data); reflexivity.
    + destruct (cut_after LF data) as [[l r]|]; [|discriminate].
      intros [= <- <-]. rewrite (IH _ _ eq_refl). reflexivity.
Qed.

Lemma split_lines_cut_none data :
  cut_after LF data = None -> split_lines data = ([], data).
Proof.
  induction data as [|c data IH]; simpl; [reflexivity|].
  destruct (Byte.eqb c LF); [discriminate|].
  destruct (cut_after LF data) as [[l r]|]; [discriminate|].
  intros _. rewrite IH by reflexivity. reflexivity.
Qed.

Lemma full_lines_cut data line rest :
  cut_after LF data = Some (line, rest) ->
  full_lines data = line :: full_lines rest /\
  last_partial data = last_partial rest.
Proof.
  intros H. unfold full_lines at 1, last_partial at 1.
  rewrite (split_lines_cut_some _ _ _ H). split; reflexivity.
Qed.

Lemma full_lines_nocut data :
  cut_after LF data = None ->
  full_lines data = [] /\ last_partial data = data.
Proof.
  intros H. unfold full_lines, last_partial.
  rewrite (split_lines_cut_none _ H). split; reflexivity.
Qed.

Lemma write_headers_block headers lineEnding buffer :
  write_headers buffer headers lineEnding =
  buffer ++ header_block headers lineEnding.
Proof.
  unfold header_block.
  revert buffer; induction headers as [|h hs IH]; intros buffer; simpl.
  - now rewrite app_nil_r.
  - rewrite IH, <- !app_assoc. reflexivity.
Qed.

(** After line 1 the loop copies the terminated lines that do not begin
    with [From: ] and then the unterminated remainder. *)
Lemma headerRewriter_loop_later data linenum0 buffer headers :
  (1 <= linenum0)%Z ->
  headerRewriter_loop (NewBuffer data) linenum0 buffer headers =
  ret (buffer ++ concat (filter keep_line (full_lines data))
              ++ last_partial data).
Proof.
  remember (length data) as n eqn:Hn.
  revert data Hn linenum0 buffer.
  induction n as [n IH] using lt_wf_ind.
  intros data Hn linenum0 buffer Hl.
  rewrite headerRewriter_loop_eq. unfold headerRewriter_step, ReadBytes.
  cbn [unread at_end NewBuffer].
  destruct (cut_after LF data) as [[line rest]|] eqn:Hcut.
  - pose proof (cut_after_shorter _ _ _ _ Hcut) as Hlt.
    destruct (full_lines_cut _ _ _ Hcut) as [-> ->]. cbn [filter].
    replace (linenum0 + 1 =? 1)%Z with false by (symmetry; apply Z.eqb_neq; lia).
    cbn [andb]. unfold keep_line at 1.
    change (mkReader rest EOF) with (NewBuffer rest).
    destruct (HasPrefix line (B "From: ")); cbn [negb].
    + rewrite (IH (length rest)) by (auto; lia). reflexivity.
    + rewrite (IH (length rest)) by (auto; lia).
      cbn [concat]. rewrite <- !app_assoc. reflexivity.
  - destruct (full_lines_nocut _ Hcut) as [-> ->]. reflexivity.
Qed.

(** [headerRewriter] on an in-memory buffer never fails, and its output is
    [rewritten]. *)
Lemma headerRewriter_rewritten data headers :
  headerRewriter (NewBuffer data) headers = ret (rewritten data headers).
Proof.
  unfold headerRewriter, rewritten.
  rewrite headerRewriter_loop_eq. unfold headerRewriter_step, ReadBytes.
  cbn [unread at_end NewBuffer].
  destruct (cut_after LF data) as [[line rest]|] eqn:Hcut.
  - destruct (full_lines_cut _ _ _ Hcut) as [-> ->].
    change (0 + 1 =? 1)%Z with true. cbn [andb].
    change (mkReader rest EOF) with (NewBuffer rest).
    rewrite write_headers_block. cbn [app].
    destruct (HasPrefix line (B "From ")); cbn [orb].
    + rewrite headerRewriter_loop_later by lia. reflexivity.
    + destruct (HasPrefix line (B "From: ")).
      * rewrite headerRewriter_loop_later by lia. reflexivity.
      * rewrite headerRewriter_loop_later by lia.
        rewrite <- !app_assoc. reflexivity.
  - destruct (full_lines_nocut _ Hcut) as [-> ->]. reflexivity.
Qed.

(** ** Prefixes, suffixes and lines *)

Lemma Equal_eq a b : Equal a b = true <-> a = b.
Proof.
  revert b; induction a as [|x a IH]; intros [|y b]; simpl;
    try (split; (discriminate || reflexivity)).
  rewrite andb_true_iff, IH. split.
  - intros [H ->]. apply byte_dec_bl in H. now subst.
  - intros [= -> ->]. split; [now apply byte_dec_lb | reflexivity].
Qed.

Lemma HasPrefix_spec s p : HasPrefix s p = true <-> exists r, s = p ++ r.
Proof.
  unfold HasPrefix. rewrite andb_true_iff, Nat.leb_le, Equal_eq. split.
  - intros [_ H]. exists (skipn (length p) s).
    rewrite <- H at 1. symmetry. apply firstn_skipn.
  - intros [r ->]. rewrite length_app, firstn_app, firstn_all, Nat.sub_diag.
    simpl. rewrite app_nil_r. split; [lia | reflexivity].
Qed.

Lemma HasSuffix_spec s p : HasSuffix s p = true <-> exists r, s = r ++ p.
Proof.
  unfold HasSuffix. rewrite andb_true_iff, Nat.leb_le, Equal_eq. split.
  - intros [_ H]. exists (firstn (length s - length p) s).
    rewrite <- H at 2. symmetry. apply firstn_skipn.
  - intros [r ->]. rewrite length_app. split; [lia|].
    replace (length r + length p - length p)%nat with (length r + 0)%nat by lia.
    rewrite skipn_app, skipn_all2 by lia.
    replace (length r + 0 - length r)%nat with 0%nat by lia. reflexivity.
Qed.

Lemma eqb_LF c : Byte.eqb c LF = true <-> c = LF.
Proof.
  split; [apply byte_dec_bl | apply byte_dec_lb].
Qed.

Lemma eqb_LF_false c : Byte.eqb c LF = false <-> c <> LF.
Proof.
  split.
  - intros H ->. discriminate H.
  - intros H. destruct (Byte.eqb c LF) eqn:E; [|reflexivity].
    now apply eqb_LF in E.
Qed.

Lemma wf_line_terminated line : wf_line line -> terminated line = true.
Proof.
  intros [body [-> _]]. apply HasSuffix_spec. now exists body.
Qed.

Lemma terminated_has_LF line : terminated line = true -> In LF line.
Proof.
  intros H. apply HasSuffix_spec in H as [r ->].
  apply in_or_app. right. now left.
Qed.

Lemma split_lines_wf data :
  Forall wf_line (full_lines data) /\ ~ In LF (last_partial data) /\
  concat (full_lines data) ++ last_partial data = data.
Proof.
  unfold full_lines, last_partial.
  induction data as [|c data IH]; simpl.
  - split; [constructor | split; [intros [] | reflexivity]].
  - destruct (split_lines data) as [ls tail]; simpl in *.
    destruct IH as (Hwf & Hp & Hcat).
    destruct (Byte.eqb c LF) eqn:Ec; simpl.
    + apply eqb_LF in Ec; subst c.
      split; [|split; [assumption | now rewrite Hcat]].
      constructor; [|assumption]. exists []. split; [reflexivity | intros []].
    + apply eqb_LF_false in Ec.
      destruct ls as [|l ls]; simpl in *.
      * split; [constructor | split; [| now rewrite Hcat]].
        intros [H|H]; [now subst | auto].
      * pose proof (Forall_inv Hwf) as (body & Hl & Hb).
        pose proof (Forall_inv_tail Hwf) as Hwf'.
        split; [|split; [assumption | now rewrite <- Hcat]].
        constructor; [|assumption]. exists (c :: body).
        split; [now rewrite Hl|]. intros [H|H]; [now subst | auto].
Qed.

Lemma split_lines_no_LF tail : ~ In LF tail -> split_lines tail = ([], tail).
Proof.
  induction tail as [|c tail IH]; simpl; intros H; [reflexivity|].
  destruct (Byte.eqb c LF) eqn:Ec.
  - apply eqb_LF in Ec. subst. exfalso; auto.
  - rewrite IH by auto. reflexivity.
Qed.

(** Splitting undoes joining. *)
Lemma split_lines_join ls tail :
  Forall wf_line ls -> ~ In LF tail ->
  split_lines (concat ls ++ tail) = (ls, tail).
Proof.
  intros Hwf Ht. induction Hwf as [|l ls (body & -> & Hb) _ IH]; simpl.
  - now apply split_lines_no_LF.
  - rewrite <- !app_assoc. simpl.
    induction body as [|c body IHb]; simpl.
    + rewrite IH. reflexivity.
    + rewrite IHb by (intros H; apply Hb; now right).
      destruct (Byte.eqb c LF) eqn:Ec; [|reflexivity].
      apply eqb_LF in Ec. subst. exfalso. apply Hb. now left.
Qed.

Lemma count_lines_join ls tail :
  Forall wf_line ls -> ~ In LF tail ->
  count_lines (concat ls ++ tail) =
  (length ls + match tail with [] => 0 | _ :: _ => 1 end)%nat.
Proof.
  intros Hwf Ht. unfold count_lines, lines, full_lines, last_partial.
  rewrite split_lines_join by assumption. simpl.
  rewrite length_app. destruct tail; reflexivity.
Qed.

Lemma lines_full data l1 ls :
  full_lines data = l1 :: ls ->
  lines data = l1 :: ls ++
    match last_partial data with [] => [] | _ :: _ => [last_partial data] end.
Proof.
  unfold lines. now intros ->.
Qed.

Lemma not_terminated_no_LF tail : ~ In LF tail -> terminated tail = false.
Proof.
  intros H. destruct (terminated tail) eqn:E; [|reflexivity].
  now apply terminated_has_LF in E.
Qed.

(** Line 1 is terminated exactly when the stream has a terminated line. *)
Lemma line1_terminated data :
  terminated (line1 data) = true ->
  exists l1 ls, full_lines data = l1 :: ls /\ line1 data = l1.
Proof.
  destruct (split_lines_wf data) as (Hwf & Hp & _).
  unfold line1, lines. destruct (full_lines data) as [|l1 ls]; simpl.
  - intros H. exfalso.
    destruct (last_partial data) as [|c t] eqn:E; simpl in H.
    + discriminate H.
    + rewrite not_terminated_no_LF in H by assumption. discriminate.
  - intros _. now exists l1, ls.
Qed.

Lemma guessLineEnding_cases line :
  guessLineEnding line = [LF] \/ guessLineEnding line = [CR; LF].
Proof.
  unfold guessLineEnding. destruct (HasSuffix line [CR; LF]); auto.
Qed.

Lemma header_lines_wf headers line :
  Forall one_line headers ->
  Forall wf_line (map (fun h => B h ++ guessLineEnding line) headers).
Proof.
  intros H. apply Forall_map. eapply Forall_impl; [|exact H].
  intros h Hh. destruct (guessLineEnding_cases line) as [-> | ->].
  - now exists (B h).
  - exists (B h ++ [CR]). rewrite <- app_assoc. split; [reflexivity|].
    intros Hin. apply in_app_or in Hin as [Hin | [Hin | []]]; [auto|].
    discriminate Hin.
Qed.

(** The two removal prefixes exclude each other. *)
Lemma envelope_not_from line :
  HasPrefix line (B "From ") = true -> HasPrefix line (B "From: ") = false.
Proof.
  intros H. apply HasPrefix_spec in H as [r ->].
  destruct (HasPrefix (B "From " ++ r) (B "From: ")) eqn:E; [|reflexivity].
  apply HasPrefix_spec in E as [r' E]. discriminate E.
Qed.

Lemma filter_split_length {A} (f : A -> bool) (l : list A) :
  (length (filter f l) + length (filter (fun x => negb (f x)) l) = length l)%nat.
Proof.
  induction l as [|x l IH]; simpl; [reflexivity|].
  destruct (f x); simpl; lia.
Qed.

Lemma filter_ext_Forall {A} (f g : A -> bool) (P : A -> Prop) (l : list A) :
  Forall P l -> (forall x, P x -> f x = g x) -> filter f l = filter g l.
Proof.
  intros H Hfg. induction H as [|x l Hx _ IH]; simpl; [reflexivity|].
  rewrite (Hfg x Hx), IH. reflexivity.
Qed.

(** ** C3: the line count of the rewrite *)

Lemma rewritten_line_count data headers :
  terminated (line1 data) = true ->
  Forall one_line headers ->
  (count_lines (rewritten data headers) + envelope_lines data
     + from_lines_terminated data
   = length headers + count_lines data)%nat.
Proof.
  intros H1 Hh. destruct (line1_terminated _ H1) as (l1 & ls & Hfull & Hl1).
  destruct (split_lines_wf data) as (Hwf & Hp & _).
  unfold rewritten, envelope_lines, from_lines_terminated, count_lines at 2.
  rewrite Hl1, (lines_full _ _ _ Hfull), Hfull. rewrite Hfull in Hwf.
  pose proof (Forall_inv Hwf) as Hwf1. pose proof (Forall_inv_tail Hwf) as Hwfs.
  set (tail := last_partial data) in *.
  set (first := if HasPrefix l1 (B "From ") || HasPrefix l1 (B "From: ")
                then [] else [l1]).
  assert (Hout :
    header_block headers (guessLineEnding l1) ++
    (if HasPrefix l1 (B "From ") || HasPrefix l1 (B "From: ") then [] else l1)
      ++ concat (filter keep_line ls) ++ tail
    = concat (map (fun h => B h ++ guessLineEnding l1) headers
                ++ first ++ filter keep_line ls) ++ tail).
  { unfold header_block, first. rewrite !concat_app, <- !app_assoc.
    destruct (HasPrefix l1 (B "From ") || HasPrefix l1 (B "From: "));
      simpl; rewrite ?app_nil_r; reflexivity. }
  rewrite Hout. clear Hout.
  rewrite count_lines_join; [| |assumption].
  2:{ apply Forall_app. split; [now apply header_lines_wf|].
      apply Forall_app. split.
      - unfold first. destruct (_ || _); auto.
      - apply incl_Forall with (l1 := ls); [apply incl_filter | assumption]. }
  rewrite !length_app, length_map. cbn [filter length].
  rewrite (wf_line_terminated _ Hwf1). cbn [andb].
  rewrite filter_app, length_app.
  assert (Htail :
    filter (fun l => terminated l && HasPrefix l (B "From: "))
      match tail with [] => [] | _ :: _ => [tail] end = []).
  { destruct tail as [|c t] eqn:Et; [reflexivity|]. cbn [filter].
    rewrite not_terminated_no_LF by assumption. reflexivity. }
  rewrite Htail, app_nil_r.
  rewrite (filter_ext_Forall
             (fun l => terminated l && HasPrefix l (B "From: "))
             (fun l => negb (keep_line l)) wf_line ls Hwfs).
  2:{ intros l Hl. rewrite (wf_line_terminated _ Hl). unfold keep_line.
      now rewrite negb_involutive. }
  pose proof (filter_split_length keep_line ls) as Hsplit.
  unfold first. destruct (HasPrefix l1 (B "From ")) eqn:E1.
  - rewrite (envelope_not_from _ E1). cbn [orb length].
    destruct tail; cbn [length]; lia.
  - destruct (HasPrefix l1 (B "From: ")); cbn [orb length];
      destruct tail; cbn [length]; lia.
Qed.

(** C3, as stated, fails: a last line without terminator that begins with
    [From: ] is copied, not removed. *)
Lemma line_count_as_stated_fails :
  ~ line_count_as_stated (B "a" ++ [LF] ++ B "From: x") ["X-Test: 1"].
Proof.
  intros H. specialize (H _ (headerRewriter_rewritten _ _)).
  vm_compute in H. discriminate H.
Qed.

(** C3 (amended): for every input whose line 1 ends with a line feed and
    every list of synthesized headers none of which holds a line feed, the
    number of lines of the rewrite output, plus 1 if input line 1 begins
    with [From ], plus the number of line-feed-terminated input lines
    that begin with [From: ], equals the number of synthesized headers plus
    the number of input lines. *)
Theorem rewrite_line_count data headers :
  terminated (line1 data) = true ->
  Forall one_line headers ->
  exists out,
    headerRewriter (NewBuffer data) headers = ret out /\
    (count_lines out + envelope_lines data + from_lines_terminated data
     = length headers + count_lines data)%nat.
Proof.
  intros H1 Hh. exists (rewritten data headers). split.
  - apply headerRewriter_rewritten.
  - now apply rewritten_line_count.
Qed.

Lemma rewrite_line_count_witness :
  terminated (line1 scenario_input) = true /\
  Forall one_line scenario_headers /\
  exists out,
    headerRewriter (NewBuffer scenario_input) scenario_headers = ret out /\
    (count_lines out + envelope_lines scenario_input
       + from_lines_terminated scenario_input
     = length scenario_headers + count_lines scenario_input)%nat.
Proof.
  assert (H1 : terminated (line1 scenario_input) = true) by reflexivity.
  assert (H2 : Forall one_line scenario_headers) by one_line_headers.
  split; [exact H1 | split; [exact H2 |]].
  exact (rewrite_line_count scenario_input scenario_headers H1 H2).
Defined.

Example scenario_output :
  headerRewriter (NewBuffer scenario_input) scenario_headers =
  ret (header_block scenario_headers CRLF ++
       B "Subject: hi" ++ CRLF ++ CRLF ++ B "body").
Proof. vm_compute. reflexivity. Qed.

(** ** C4: edge cases of the rewrite *)

(** C4, as stated, fails: a single line [From: x] without terminator is
    copied, the removal rule is not applied to it. *)
Lemma single_line_as_stated_fails :
  ~ single_line_as_stated (B "From: x") [].
Proof.
  unfold single_line_as_stated. rewrite headerRewriter_rewritten.
  vm_compute. discriminate.
Qed.

(** C4 (amended): for an input with no line feed (the empty input, or a
    single line without terminator) that does not begin with [From ], the
    output holds nothing but synthesized headers, a prefix of the header
    block, followed by the input as it is: the [From: ] rule is not
    applied to a line without terminator.  And for every input only line 1
    is checked against the envelope prefix: of the terminated lines after
    line 1 exactly those that begin with [From: ] are left out, so one that
    begins with [From ] is copied. *)
Theorem rewrite_edge_cases :
  (forall data headers,
     ~ In LF data -> HasPrefix data (B "From ") = false ->
     exists head rest,
       header_block headers [LF] = head ++ rest /\
       headerRewriter (NewBuffer data) headers = ret (head ++ data)) /\
  (forall data headers l1 ls, full_lines data = l1 :: ls ->
     exists head,
       headerRewriter (NewBuffer data) headers =
       ret (head ++ concat (filter keep_line ls) ++ last_partial data)) /\
  (forall line, HasPrefix line (B "From ") = true -> keep_line line = true).
Proof.
  split; [|split].
  - intros data headers Hl _. exists [], (header_block headers [LF]).
    split; [reflexivity|].
    rewrite headerRewriter_rewritten. unfold rewritten, full_lines, last_partial.
    now rewrite split_lines_no_LF.
  - intros data headers l1 ls Hfull. rewrite headerRewriter_rewritten.
    unfold rewritten. rewrite Hfull. eexists. rewrite app_assoc. reflexivity.
  - intros line H. unfold keep_line. now rewrite envelope_not_from.
Qed.

Lemma rewrite_edge_cases_witness :
  (~ In LF (B "From: Alice <a@b>") /\
   HasPrefix (B "From: Alice <a@b>") (B "From ") = false /\
   exists head rest,
     header_block scenario_headers [LF] = head ++ rest /\
     headerRewriter (NewBuffer (B "From: Alice <a@b>")) scenario_headers
     = ret (head ++ B "From: Alice <a@b>")) /\
  (full_lines two_envelopes =
     [B "From a@b Mon Jan 1" ++ [LF]; B "From c@d Tue Jan 2" ++ [LF]] /\
   exists head,
     headerRewriter (NewBuffer two_envelopes) scenario_headers =
     ret (head ++ concat (filter keep_line [B "From c@d Tue Jan 2" ++ [LF]])
               ++ last_partial two_envelopes)) /\
  (HasPrefix (B "From c@d Tue Jan 2" ++ [LF]) (B "From ") = true /\
   keep_line (B "From c@d Tue Jan 2" ++ [LF]) = true).
Proof.
  destruct rewrite_edge_cases as (Hsingle & Hlater & Hkeep).
  assert (H1 : ~ In LF (B "From: Alice <a@b>"))
    by (vm_compute; intuition discriminate).
  assert (H1' : HasPrefix (B "From: Alice <a@b>") (B "From ") = false)
    by reflexivity.
  assert (H2 : full_lines two_envelopes =
     [B "From a@b Mon Jan 1" ++ [LF]; B "From c@d Tue Jan 2" ++ [LF]])
    by reflexivity.
  assert (H3 : HasPrefix (B "From c@d Tue Jan 2" ++ [LF]) (B "From ") = true)
    by reflexivity.
  split; [split; [exact H1 | split; [exact H1' |
            exact (Hsingle _ scenario_headers H1 H1')]] |].
  split; [split; [exact H2 | exact (Hlater _ scenario_headers _ _ H2)] |].
  split; [exact H3 | exact (Hkeep _ H3)].
Defined.

(** ** C5: the round trip *)

(** Where line 1 ends with a line feed the round trip holds. *)
Lemma roundtrip_terminated data headers :
  terminated (line1 data) = true ->
  roundtrip_as_stated data headers.
Proof.
  intros H1 Henv Hfrom. rewrite headerRewriter_rewritten. f_equal.
  destruct (line1_terminated _ H1) as (l1 & ls & Hfull & Hl1).
  destruct (split_lines_wf data) as (_ & _ & Hcat).
  unfold rewritten, from_lines in *. rewrite Hl1 in *.
  rewrite (lines_full _ _ _ Hfull) in Hfrom. rewrite Hfull in *.
  cbn [filter] in Hfrom. rewrite Henv. cbn [orb].
  destruct (HasPrefix l1 (B "From: ")); [discriminate Hfrom|].
  rewrite filter_app, length_app in Hfrom.
  assert (Hls : filter (fun l => HasPrefix l (B "From: ")) ls = [])
    by (apply length_zero_iff_nil; lia).
  assert (Hkeep : filter keep_line ls = ls).
  { clear - Hls. induction ls as [|l ls IH]; [reflexivity|].
    cbn [filter] in *. unfold keep_line at 1.
    destruct (HasPrefix l (B "From: ")); [discriminate Hls|].
    cbn [negb]. now rewrite IH. }
  rewrite Hkeep. cbn [concat] in Hcat. rewrite <- app_assoc in Hcat.
  now rewrite Hcat.
Qed.

(** C5 at an input of one line without terminator: the synthesized header
    is not written, so the output is not the headers followed by the
    input. *)
Theorem roundtrip_fails_without_line_feed :
  headerRewriter (NewBuffer (B "Subject: hi")) ["X-Test: 1"]
    = ret (B "Subject: hi") /\
  ~ roundtrip_as_stated (B "Subject: hi") ["X-Test: 1"].
Proof.
  split; [reflexivity|].
  intros H. specialize (H eq_refl eq_refl). vm_compute in H. discriminate H.
Qed.

(** ** C6: the line ending of the synthesized headers *)

(** Where line 1 ends with a line feed every synthesized header is written
    with the terminator of line 1. *)
Lemma line_ending_terminated data headers :
  terminated (line1 data) = true ->
  line_ending_as_stated data headers.
Proof.
  intros H1. destruct (line1_terminated _ H1) as (l1 & ls & Hfull & Hl1).
  unfold line_ending_as_stated, stated_line_ending.
  rewrite headerRewriter_rewritten. unfold rewritten.
  rewrite Hfull, Hl1. eexists. reflexivity.
Qed.

(** C6 at an input of one line without terminator: no synthesized header
    is written at all. *)
Theorem line_ending_fails_without_line_feed :
  headerRewriter (NewBuffer (B "Return-Path: <x@y.com>"))
                 ["X-Original-Return-Path: <x@y.com>"]
    = ret (B "Return-Path: <x@y.com>") /\
  ~ line_ending_as_stated (B "Return-Path: <x@y.com>")
                          ["X-Original-Return-Path: <x@y.com>"].
Proof.
  split; [reflexivity|].
  intros [rest H]. rewrite headerRewriter_rewritten in H.
  vm_compute in H. discriminate H.
Qed.

(** ** C10: the removal rules are exact prefix matches *)

Lemma select_ext keep keep' i ls :
  (forall j, keep j = keep' j) -> select keep i ls = select keep' i ls.
Proof.
  intros H. revert i; induction ls as [|l ls IH]; intros i; simpl.
  - reflexivity.
  - now rewrite H, IH.
Qed.

Lemma select_shift keep i ls :
  select keep (S i) ls = select (fun j => keep (S j)) i ls.
Proof.
  revert i; induction ls as [|l ls IH]; intros i; simpl.
  - reflexivity.
  - now rewrite IH.
Qed.

Lemma select_all i ls : select (fun _ => true) i ls = ls.
Proof.
  revert i; induction ls as [|l ls IH]; intros i; simpl.
  - reflexivity.
  - now rewrite IH.
Qed.

Lemma select_filter (f : bytes -> bool) ls tail :
  select (fun j => nth j (map f ls) true) 0 (ls ++ tail) = filter f ls ++ tail.
Proof.
  induction ls as [|l ls IH]; simpl.
  - rewrite (select_ext _ (fun _ => true)) by (now intros [|j]).
    apply select_all.
  - rewrite select_shift. cbn [nth]. rewrite IH.
    now destruct (f l).
Qed.

Lemma nth_map_false (f : bytes -> bool) ls j :
  nth j (map f ls) true = false ->
  exists l, nth_error ls j = Some l /\ f l = false.
Proof.
  revert j; induction ls as [|l ls IH]; intros [|j]; simpl;
    try discriminate.
  - intros H. now exists l.
  - apply IH.
Qed.

Lemma HasPrefix_firstn line p :
  HasPrefix line p = true -> firstn (length p) line = p.
Proof.
  unfold HasPrefix. rewrite andb_true_iff, Equal_eq. now intros [_ H].
Qed.

(** C10: the output is a head (the synthesized headers) followed by the
    lines of the input, in order and unchanged, with some left out; a line
    is left out only if it is line 1 and begins with the five bytes
    [From ], or begins with the six bytes [From: ]; so a line that begins
    with [From:Alice] or with [from: alice] is copied wherever it
    stands. *)
Theorem removal_is_exact_prefix_match data headers :
  exists head keep,
    headerRewriter (NewBuffer data) headers =
      ret (head ++ concat (select keep 0 (lines data))) /\
    (forall i l, nth_error (lines data) i = Some l -> keep i = false ->
       (i = 0%nat /\ firstn 5 l = B "From ") \/ firstn 6 l = B "From: ") /\
    (forall i l r, nth_error (lines data) i = Some l ->
       l = B "From:Alice" ++ r \/ l = B "from: alice" ++ r ->
       keep i = true).
Proof.
  assert (Hmain : exists head keep,
    headerRewriter (NewBuffer data) headers =
      ret (head ++ concat (select keep 0 (lines data))) /\
    (forall i l, nth_error (lines data) i = Some l -> keep i = false ->
       (i = 0%nat /\ firstn 5 l = B "From ") \/ firstn 6 l = B "From: ")).
  { rewrite headerRewriter_rewritten. unfold rewritten.
    destruct (full_lines data) as [|l1 ls] eqn:Hfull.
    - exists [], (fun _ => true). split; [|discriminate].
      rewrite select_all. unfold lines. rewrite Hfull.
      destruct (last_partial data); simpl; now rewrite ?app_nil_r.
    - rewrite (lines_full _ _ _ Hfull).
      set (tail := match last_partial data with
                   | [] => [] | _ :: _ => [last_partial data] end).
      set (drop1 := HasPrefix l1 (B "From ") || HasPrefix l1 (B "From: ")).
      exists (header_block headers (guessLineEnding l1)),
             (fun i => nth i (negb drop1 :: map keep_line ls) true).
      split.
      + f_equal. f_equal. cbn [select nth]. rewrite select_shift.
        cbn [nth]. rewrite select_filter.
        assert (Ht : concat tail = last_partial data).
        { unfold tail. destruct (last_partial data); simpl;
            now rewrite ?app_nil_r. }
        destruct drop1; cbn [negb concat]; now rewrite concat_app, Ht.
      + intros [|j] l Hnth Hkeep; cbn [nth nth_error] in *.
        * injection Hnth as <-. unfold drop1 in Hkeep.
          apply negb_false_iff, orb_true_iff in Hkeep as [H|H];
            apply HasPrefix_firstn in H; auto.
        * right. apply nth_map_false in Hkeep as (l' & Hl' & Hk).
          rewrite nth_error_app1 in Hnth
            by (apply nth_error_Some; congruence).
          assert (l = l') by congruence. subst l'.
          unfold keep_line in Hk. apply negb_false_iff in Hk.
          now apply HasPrefix_firstn in Hk. }
  destruct Hmain as (head & keep & Hout & Honly).
  exists head, keep. split; [exact Hout | split; [exact Honly |]].
  intros i l r Hnth Hl. destruct (keep i) eqn:Hk; [reflexivity|].
  exfalso. destruct (Honly i l Hnth Hk) as [[_ H] | H];
    destruct Hl as [-> | ->]; discriminate H.
Qed.

Lemma removal_is_exact_prefix_match_witness :
  exists head keep,
    headerRewriter (NewBuffer scattered_from_lines) scenario_headers =
      ret (head ++ concat (select keep 0 (lines scattered_from_lines))) /\
    nth_error (lines scattered_from_lines) 1 = Some (B "from: alice" ++ [LF]) /\
    keep 1%nat = true.
Proof.
  destruct (removal_is_exact_prefix_match scattered_from_lines scenario_headers)
    as (head & keep & Hout & _ & Hkept).
  exists head, keep. split; [exact Hout|].
  assert (Hnth : nth_error (lines scattered_from_lines) 1
                 = Some (B "from: alice" ++ [LF])) by reflexivity.
  split; [exact Hnth|].
  exact (Hkept 1%nat _ [LF] Hnth (or_intror eq_refl)).
Defined.

(** ** C2: the responses of the resolver *)

Lemma three_digit_codes : forallb prints_and_parses (seq 0 900) = true.
Proof. vm_compute. reflexivity. Qed.

Lemma itoa_three_digits code :
  (100 <= code <= 999)%Z ->
  exists a b c,
    itoa code = String a (String b (String c EmptyString)) /\
    Atoi (String a (String b (String c EmptyString))) = Some code.
Proof.
  intros Hc.
  pose proof (proj1 (forallb_forall _ _) three_digit_codes
                (Z.to_nat (code - 100))) as H.
  assert (Hin : In (Z.to_nat (code - 100)) (seq 0 900))
    by (apply in_seq; lia).
  specialize (H Hin). unfold prints_and_parses in H.
  replace (Z.of_nat (Z.to_nat (code - 100)) + 100)%Z with code in H by lia.
  destruct (itoa code) as [|a [|b [|c [|? ?]]]]; try discriminate H.
  exists a, b, c. split; [reflexivity|].
  destruct (Atoi _) as [v|]; [|discriminate H].
  apply Z.eqb_eq in H. now subst.
Qed.

Lemma substring_all s : substring 0 (String.length s) s = s.
Proof.
  induction s as [|c s IH]; simpl; [reflexivity | now rewrite IH].
Qed.

(** A response line made of a three-digit code, a space and a message is
    read as that code and that message. *)
Lemma ReadCodeLine_single_line code msg :
  (100 <= code <= 999)%Z ->
  ReadCodeLine (itoa code ++ " " ++ msg)%string (-1) = (code, msg, None).
Proof.
  intros Hc. destruct (itoa_three_digits code Hc) as (a & b & c & -> & HA).
  unfold ReadCodeLine, parseCodeLine, from_index.
  cbn [append String.length Nat.ltb Nat.leb get is_byte substring orb andb
       negb Ascii.eqb Bool.eqb Nat.sub].
  rewrite HA. replace (code <? 100)%Z with false by (symmetry; apply Z.ltb_ge; lia).
  cbn. now rewrite Nat.sub_0_r, substring_all.
Qed.

(** C2: for every key and every response line made of a three-digit code, a
    space and a message: code 200 returns the message and no error; code
    500 returns the key unchanged and no error, after one warning written
    to stderr; any other code returns an error that carries the code and
    the message.  Failures to dial, to send or to read, and responses that
    do not parse, return an error.  Nothing is written to stderr except
    for code 500. *)
Theorem lookupTCP_responses (net : Network) (addr key : string) :
  (forall code msg, (100 <= code <= 999)%Z ->
     net addr ("get " ++ key)%string = Replies (itoa code ++ " " ++ msg)%string ->
     (code = 200%Z -> lookupTCP net addr key = ([], Ret (msg, None))) /\
     (code = 500%Z ->
        lookupTCP net addr key =
        ([Stderr ("warning: srs: returncode 500 (" ++ msg ++ ")" ++ nl)%string],
         Ret (key, None))) /\
     (code <> 200%Z -> code <> 500%Z ->
        lookupTCP net addr key =
        ([], Ret ("", Some ("srs: unexpected returncode " ++ itoa code ++
                            " (" ++ msg ++ ")")%string)))) /\
  (forall err,
     net addr ("get " ++ key)%string = DialFails err \/
     net addr ("get " ++ key)%string = CmdFails err \/
     net addr ("get " ++ key)%string = ReadFails err ->
     lookupTCP net addr key = ([], Ret ("", Some err))) /\
  (forall line err,
     net addr ("get " ++ key)%string = Replies line ->
     snd (ReadCodeLine line (-1)) = Some err ->
     lookupTCP net addr key = ([], Ret ("", Some err))) /\
  (trace (lookupTCP net addr key) <> [] ->
   exists line msg,
     net addr ("get " ++ key)%string = Replies line /\
     ReadCodeLine line (-1) = (500%Z, msg, None)).
Proof.
  unfold lookupTCP. split; [|split; [|split]].
  - intros code msg Hc Hnet. rewrite Hnet, ReadCodeLine_single_line by lia.
    split; [|split].
    + now intros ->.
    + now intros ->.
    + intros H200 H500. apply Z.eqb_neq in H200, H500.
      now rewrite H200, H500.
  - intros err [H | [H | H]]; now rewrite H.
  - intros line err Hnet Herr. rewrite Hnet.
    destruct (ReadCodeLine line (-1)) as [[code msg] e]. simpl in Herr.
    now subst e.
  - destruct (net addr ("get " ++ key)%string) as [e|e|e|line];
      try (intros H; now elim H).
    destruct (ReadCodeLine line (-1)) as [[code msg] [e|]] eqn:Hread;
      [intros H; now elim H|].
    destruct (code =? 200)%Z eqn:E200; [intros H; now elim H|].
    destruct (code =? 500)%Z eqn:E500; [|intros H; now elim H].
    intros _. apply Z.eqb_eq in E500. subst code. now exists line, msg.
Qed.

Lemma lookupTCP_responses_witness :
  lookupTCP (srs_example "200 a@b.com") "localhost:10001" "x@y.com"
    = ([], Ret ("a@b.com", None)) /\
  lookupTCP (srs_example "500 anything") "localhost:10001" "x@y.com"
    = ([Stderr ("warning: srs: returncode 500 (anything)" ++ nl)%string],
       Ret ("x@y.com", None)) /\
  lookupTCP (srs_example "404 nope") "localhost:10001" "x@y.com"
    = ([], Ret ("", Some "srs: unexpected returncode 404 (nope)")) /\
  lookupTCP (srs_example "200 a@b.com") "localhost:10002" "x@y.com"
    = ([], Ret ("", Some "dial tcp: connection refused")) /\
  lookupTCP (srs_example "ok") "localhost:10001" "x@y.com"
    = ([], Ret ("", Some "short response: ok")).
Proof.
  split; [|split; [|split; [|split]]].
  - refine (proj1 (proj1 (lookupTCP_responses
             (srs_example "200 a@b.com") "localhost:10001" "x@y.com")
             200%Z "a@b.com" _ eq_refl) eq_refl). lia.
  - refine (proj1 (proj2 (proj1 (lookupTCP_responses
             (srs_example "500 anything") "localhost:10001" "x@y.com")
             500%Z "anything" _ eq_refl)) eq_refl). lia.
  - refine (proj2 (proj2 (proj1 (lookupTCP_responses
             (srs_example "404 nope") "localhost:10001" "x@y.com")
             404%Z "nope" _ eq_refl)) _ _); lia.
  - refine (proj1 (proj2 (lookupTCP_responses
             (srs_example "200 a@b.com") "localhost:10002" "x@y.com"))
             _ (or_introl eq_refl)).
  - refine (proj1 (proj2 (proj2 (lookupTCP_responses
             (srs_example "ok") "localhost:10001" "x@y.com")))
             "ok" _ eq_refl eq_refl).
Defined.

(** ** [main]: running the stages *)

Lemma bind_ret {A C} (a : A) (k : A -> Proc C) : bind (ret a) k = k a.
Proof.
  unfold bind, ret. now destruct (k a).
Qed.

Lemma outcome_bind {A C} tr (a : A) (k : A -> Proc C) :
  outcome (bind (tr, Ret a) k) = outcome (k a).
Proof.
  unfold bind, outcome. now destruct (k a).
Qed.

Lemma trace_bind {A C} tr (a : A) (k : A -> Proc C) :
  trace (bind (tr, Ret a) k) = tr ++ trace (k a).
Proof.
  unfold bind, trace. now destruct (k a).
Qed.

Lemma exit_status_bind {A} tr (a : A) (k : A -> Proc unit) :
  exit_status (bind (tr, Ret a) k) = exit_status (k a).
Proof.
  unfold exit_status. now rewrite outcome_bind.
Qed.

Lemma delivered_bind {A} tr (a : A) (k : A -> Proc unit) :
  delivered (bind (tr, Ret a) k) = existsb is_delivery tr || delivered (k a).
Proof.
  unfold delivered. now rewrite trace_bind, existsb_app.
Qed.

(** A command-line argument holds no NUL byte, so setting [PATH] from the
    flag cannot fail. *)
Lemma set_path_returns fl :
  has_char "000" (path fl) = false ->
  (if negb (path fl =? "")%string then
     match Setenv "PATH" (path fl) with
     | Some err => die ("Unable to set $PATH: " ++ err)%string ExTempFail
     | None => ret tt
     end
   else ret tt) = ret tt.
Proof.
  intros H. unfold Setenv. cbn. rewrite H. now destruct (negb _).
Qed.

Lemma getHostname_returns w :
  exists tr hostname,
    getHostname w = (tr, Ret hostname) /\ existsb is_delivery tr = false.
Proof.
  unfold getHostname. destruct (postconf w) as [err|out]; cbn;
    eexists _, _; split; reflexivity.
Qed.

Lemma slice_middle s :
  (2 <= String.length s)%nat ->
  slice s 1 (Z.of_nat (String.length s) - 1) =
  ret (substring 1 (String.length s - 2) s).
Proof.
  intros H. unfold slice.
  replace (_ <? 0)%Z with false by (symmetry; apply Z.ltb_ge; lia).
  replace (_ <? _ - 1)%Z with false by (symmetry; apply Z.ltb_ge; lia).
  replace (1 <? 0)%Z with false by reflexivity.
  replace (_ - 1 <? 1)%Z with false by (symmetry; apply Z.ltb_ge; lia).
  cbn [orb]. do 2 f_equal. lia.
Qed.

Lemma slice_returns_iff s :
  (exists key, slice s 1 (Z.of_nat (String.length s) - 1) = ret key) <->
  (2 <= String.length s)%nat.
Proof.
  split.
  - intros [key H]. destruct s as [|a [|b s]]; [discriminate H.. |].
    cbn [String.length]. lia.
  - intros H. eexists. now apply slice_middle.
Qed.

Lemma tee_reads_split buffer reads :
  fst (tee_reads buffer reads) ++ concat (snd (tee_reads buffer reads))
  = buffer ++ concat reads.
Proof.
  revert buffer; induction reads as [|chunk reads IH]; intros buffer; simpl.
  - reflexivity.
  - destruct (header_complete (buffer ++ chunk)); simpl.
    + now rewrite app_assoc.
    + now rewrite IH, app_assoc.
Qed.

Lemma lookupTCP_shape net addr key :
  exists tr v err,
    lookupTCP net addr key = (tr, Ret (v, err)) /\
    existsb is_delivery tr = false.
Proof.
  unfold lookupTCP. destruct (net addr _) as [e|e|e|line];
    try (cbn; eexists _, _, _; split; reflexivity).
  destruct (ReadCodeLine line (-1)) as [[code msg] [e|]];
    [cbn; eexists _, _, _; split; reflexivity|].
  destruct (code =? 200)%Z; [cbn; eexists _, _, _; split; reflexivity|].
  destruct (code =? 500)%Z; cbn; eexists _, _, _; split; reflexivity.
Qed.

Lemma lookupTCP_no_delivery net addr key tr r :
  lookupTCP net addr key = (tr, r) -> existsb is_delivery tr = false.
Proof.
  intros H. destruct (lookupTCP_shape net addr key) as (tr' & v & e & H' & Hd).
  congruence.
Qed.

Lemma nonempty_not_empty s :
  (2 <= String.length s)%nat -> (s =? "")%string = false.
Proof.
  destruct s; [cbn; lia | reflexivity].
Qed.

(** C7: the exit code of each failure, and no delivery before it.  With a
    [path] flag that holds no NUL byte (no command-line argument does):
    when the message does not parse, or the configured return-path header is
    absent, the process ends with status 65 and the delivery program is not
    invoked; when the return path was extracted and the resolver call
    returns an error, the process ends with status 75 and the delivery
    program is not invoked; when the resolver call succeeds, a dry run ends
    with status 0 without invoking the delivery program, and a run whose
    delivery program succeeds ends with status 0. *)
Theorem exit_codes fl w :
  has_char "000" (path fl) = false ->
  (forall parsed buffer rest,
     ReadMessage w = (parsed, buffer, rest) ->
     match parsed with
     | inl _ => True
     | inr h => Get h (rpHeader fl) = ""
     end ->
     exit_status (main fl w) = 65%Z /\ delivered (main fl w) = false) /\
  (forall h buffer rest key tr v e,
     ReadMessage w = (inr h, buffer, rest) ->
     slice (Get h (rpHeader fl)) 1
           (Z.of_nat (String.length (Get h (rpHeader fl))) - 1) = ret key ->
     lookupTCP (srs w) (srsAddr fl) key = (tr, Ret (v, Some e)) ->
     exit_status (main fl w) = 75%Z /\ delivered (main fl w) = false) /\
  (forall h buffer rest key tr v,
     ReadMessage w = (inr h, buffer, rest) ->
     slice (Get h (rpHeader fl)) 1
           (Z.of_nat (String.length (Get h (rpHeader fl))) - 1) = ret key ->
     lookupTCP (srs w) (srsAddr fl) key = (tr, Ret (v, None)) ->
     (dryRun fl = true ->
        exit_status (main fl w) = 0%Z /\ delivered (main fl w) = false) /\
     (dryRun fl = false ->
        (forall name args stdin, sendmail_run w name args stdin = None) ->
        exit_status (main fl w) = 0%Z /\ delivered (main fl w) = true)).
Proof.
  intros Hpath. unfold main. rewrite (set_path_returns fl Hpath), bind_ret.
  split; [|split].
  - intros parsed buffer rest -> Hp. destruct parsed as [err|h].
    + split; reflexivity.
    + rewrite Hp. split; reflexivity.
  - intros h buffer rest key tr v e -> Hslice Hlook.
    assert (Hlen : (2 <= String.length (Get h (rpHeader fl)))%nat)
      by (apply slice_returns_iff; eauto).
    rewrite (nonempty_not_empty _ Hlen), bind_ret.
    destruct (getHostname_returns w) as (trH & hostname & -> & HdH).
    rewrite exit_status_bind, delivered_bind, HdH, Hslice, !bind_ret, Hlook.
    rewrite exit_status_bind, delivered_bind.
    rewrite (lookupTCP_no_delivery _ _ _ _ _ Hlook).
    split; reflexivity.
  - intros h buffer rest key tr v -> Hslice Hlook.
    assert (Hlen : (2 <= String.length (Get h (rpHeader fl)))%nat)
      by (apply slice_returns_iff; eauto).
    rewrite (nonempty_not_empty _ Hlen), bind_ret.
    destruct (getHostname_returns w) as (trH & hostname & -> & HdH).
    rewrite exit_status_bind, delivered_bind, HdH, Hslice, !bind_ret, Hlook.
    rewrite exit_status_bind, delivered_bind.
    rewrite (lookupTCP_no_delivery _ _ _ _ _ Hlook).
    rewrite headerRewriter_rewritten, !bind_ret.
    split.
    + intros ->. split; reflexivity.
    + intros -> Hrun. rewrite Hrun. split; reflexivity.
Qed.

(** ** Example runs *)

(** ** C7: exit codes *)

Lemma exit_codes_witness :
  (exit_status (main (example_flags false) world_missing_header) = 65%Z /\
   delivered (main (example_flags false) world_missing_header) = false) /\
  (exit_status (main (example_flags false) world_refused) = 75%Z /\
   delivered (main (example_flags false) world_refused) = false) /\
  (exit_status (main (example_flags true) world_with_body) = 0%Z /\
   delivered (main (example_flags true) world_with_body) = false) /\
  (exit_status (main (example_flags false) world_with_body) = 0%Z /\
   delivered (main (example_flags false) world_with_body) = true).
Proof.
  split; [|split; [|split]].
  - refine (proj1 (exit_codes (example_flags false) world_missing_header
                     eq_refl) _ _ _ eq_refl _).
    reflexivity.
  - refine (proj1 (proj2 (exit_codes (example_flags false) world_refused
                     eq_refl)) _ _ _ _ _ _ _ eq_refl eq_refl eq_refl).
  - refine (proj1 (proj2 (proj2 (exit_codes (example_flags true)
                     world_with_body eq_refl))
                     _ _ _ _ _ _ eq_refl eq_refl eq_refl) eq_refl).
  - refine (proj2 (proj2 (proj2 (exit_codes (example_flags false)
                     world_with_body eq_refl))
                     _ _ _ _ _ _ eq_refl eq_refl eq_refl) eq_refl _).
    reflexivity.
Defined.

(** ** C9: a return path of one character *)

(** C9: when the configured return-path header is present with a value of
    exactly one character, the slice expression that removes the brackets
    panics (slice bounds out of range), so the program ends with neither
    status 65 nor status 75, and nothing is delivered; the slice returns
    exactly when the value has at least 2 characters; the empty value is
    rejected with status 65. *)
Theorem one_character_return_path_panics fl w h buffer rest :
  has_char "000" (path fl) = false ->
  ReadMessage w = (inr h, buffer, rest) ->
  (String.length (Get h (rpHeader fl)) = 1%nat ->
     outcome (main fl w) =
       Panicked "runtime error: slice bounds out of range [1:0]" /\
     exit_status (main fl w) <> 65%Z /\
     exit_status (main fl w) <> 75%Z /\
     delivered (main fl w) = false) /\
  ((exists key,
      slice (Get h (rpHeader fl)) 1
            (Z.of_nat (String.length (Get h (rpHeader fl))) - 1) = ret key)
   <-> (2 <= String.length (Get h (rpHeader fl)))%nat) /\
  (Get h (rpHeader fl) = "" -> exit_status (main fl w) = 65%Z).
Proof.
  intros Hpath HRM. split; [|split].
  - intros Hlen.
    assert (Hmain : main fl w =
      (fst (getHostname w),
       Panicked "runtime error: slice bounds out of range [1:0]")).
    { unfold main. rewrite (set_path_returns fl Hpath), bind_ret, HRM.
      destruct (Get h (rpHeader fl)) as [|c [|c' s]] eqn:Hv;
        try discriminate Hlen.
      cbn [String.eqb Ascii.eqb]. rewrite bind_ret.
      destruct (getHostname_returns w) as (trH & hostname & -> & _).
      cbn. now rewrite app_nil_r. }
    rewrite Hmain. unfold exit_status, outcome, delivered, trace. cbn [fst snd].
    destruct (getHostname_returns w) as (trH & hostname & -> & HdH).
    repeat split; try discriminate. exact HdH.
  - apply slice_returns_iff.
  - intros Hv. unfold main.
    rewrite (set_path_returns fl Hpath), bind_ret, HRM, Hv. reflexivity.
Qed.

Lemma one_character_return_path_panics_witness :
  outcome (main (example_flags false) world_one_char) =
    Panicked "runtime error: slice bounds out of range [1:0]" /\
  exit_status (main (example_flags false) world_one_char) <> 65%Z /\
  exit_status (main (example_flags false) world_one_char) <> 75%Z /\
  delivered (main (example_flags false) world_one_char) = false.
Proof.
  exact (proj1 (one_character_return_path_panics
                  (example_flags false) world_one_char _ _ _
                  eq_refl eq_refl) eq_refl).
Defined.

(** ** C8: removing the brackets *)

(** C8 at a return path without brackets: the resolver is sent the value
    without its first and last byte, [@y.co] for [x@y.com] (the resolver
    of this run answers with the command it received, which the dry run
    prints after [-f]); the [X-Original-Return-Path] header carries the
    value as it was. *)
Theorem return_path_without_brackets :
  main (example_flags true) world_unbracketed =
  ([ExecPostconf;
    Stdout (B ("Would call sendmail with args: " ++
               "[-i -f get @y.co -F unknown (forwarded) user@example.net]" ++
               nl)%string);
    Stdout (B ("Would pipe the following data into sendmail:" ++ nl ++ nl)%string);
    Stdout (B "Received: by mail.example.org (Postforward); Mon, 1 Jan 2024 00:00:00 +0000"
              ++ [LF] ++
            B "X-Original-Return-Path: x@y.com" ++ [LF] ++
            B "Return-Path: x@y.com" ++ [LF] ++ [LF] ++ B "body" ++ [LF])],
   Exited 0).
Proof. vm_compute. reflexivity. Qed.

(** ** C1: the body of the message *)

(** Whatever the tee captured, it and the reads left on standard input make
    up the input. *)
Lemma ReadMessage_split w parsed buffer rest :
  ReadMessage w = (parsed, buffer, rest) ->
  buffer ++ concat rest = concat (stdin_reads w).
Proof.
  unfold ReadMessage. pose proof (tee_reads_split [] (stdin_reads w)) as H.
  destruct (tee_reads [] (stdin_reads w)) as [b r]. intros [= _ <- <-].
  exact H.
Qed.

(** The stream handed to the delivery program: the rewrite of the captured
    buffer, then the rest of standard input as it is. *)
Lemma main_delivers fl w h buffer rest key tr v :
  has_char "000" (path fl) = false ->
  ReadMessage w = (inr h, buffer, rest) ->
  slice (Get h (rpHeader fl)) 1
        (Z.of_nat (String.length (Get h (rpHeader fl))) - 1) = ret key ->
  lookupTCP (srs w) (srsAddr fl) key = (tr, Ret (v, None)) ->
  dryRun fl = false ->
  exists trH hostname args after,
    getHostname w = (trH, Ret hostname) /\
    trace (main fl w) =
    trH ++ tr ++
    ExecSendmail (sendmailPath fl) args
       (rewritten buffer
          [("Received: by " ++ hostname ++ " (Postforward); " ++ now w)%string;
           ("X-Original-Return-Path: " ++ Get h (rpHeader fl))%string]
        ++ concat rest) :: after.
Proof.
  intros Hpath HRM Hslice Hlook Hdry.
  assert (Hlen : (2 <= String.length (Get h (rpHeader fl)))%nat)
    by (apply slice_returns_iff; eauto).
  destruct (getHostname_returns w) as (trH & hostname & HH & _).
  exists trH, hostname. eexists. eexists. split; [exact HH|].
  unfold main. rewrite (set_path_returns fl Hpath), bind_ret, HRM.
  rewrite (nonempty_not_empty _ Hlen), bind_ret, HH, trace_bind.
  rewrite Hslice, bind_ret, Hlook, trace_bind.
  rewrite headerRewriter_rewritten, bind_ret, Hdry.
  do 2 f_equal. unfold emit. rewrite trace_bind. cbn [app]. reflexivity.
Qed.

(** C1 at a message delivered by one read of standard input: the read the
    header parser triggers brings the whole message into the buffer, body
    included, and the rewrite of the buffer leaves out the body line
    [From: the team]. *)
Theorem body_line_removed :
  concat (stdin_reads world_with_body) = message_with_body /\
  snd (fst (ReadMessage world_with_body)) = message_with_body /\
  main (example_flags false) world_with_body =
  ([ExecPostconf;
    ExecSendmail "sendmail"
      ["-i"; "-f"; "x@y.com"; "-F"; "unknown (forwarded)"; "user@example.net"]
      (header_block scenario_headers [LF] ++
       B "Return-Path: <x@y.com>" ++ [LF] ++ B "Subject: hi" ++ [LF] ++
       [LF] ++
       B "bye" ++ [LF])],
   Ret tt).
Proof. vm_compute. repeat split. Qed.

(** When standard input delivers the header section and the body in
    separate reads, the buffer ends at the blank line and the body is
    passed on as it is. *)
Example body_kept_when_read_separately :
  main (example_flags false)
       (example_world
          [B "Return-Path: <x@y.com>" ++ [LF] ++ B "Subject: hi" ++ [LF] ++ [LF];
           B "From: the team" ++ [LF] ++ B "bye" ++ [LF]]
          (inr (header_of "<x@y.com>" "")) (srs_example "200 x@y.com")) =
  ([ExecPostconf;
    ExecSendmail "sendmail"
      ["-i"; "-f"; "x@y.com"; "-F"; "unknown (forwarded)"; "user@example.net"]
      (header_block scenario_headers [LF] ++
       B "Return-Path: <x@y.com>" ++ [LF] ++ B "Subject: hi" ++ [LF] ++
       [LF] ++
       B "From: the team" ++ [LF] ++ B "bye" ++ [LF])],
   Ret tt).
Proof. vm_compute. reflexivity. Qed.

(** * Further properties of the code *)

(** ** [headerRewriter]: a reader that fails *)

Lemma headerRewriter_loop_read_error data e linenum0 buffer headers :
  headerRewriter_loop (mkReader data (ErrRead e)) linenum0 buffer headers =
  die ("Unexpected error occurred while reading input: " ++ e)%string
      ExTempFail.
Proof.
  remember (length data) as n eqn:Hn.
  revert data Hn linenum0 buffer.
  induction n as [n IH] using lt_wf_ind.
  intros data Hn linenum0 buffer.
  rewrite headerRewriter_loop_eq. unfold headerRewriter_step, ReadBytes.
  cbn [unread at_end].
  destruct (cut_after LF data) as [[line rest]|] eqn:Hcut; [|reflexivity].
  pose proof (cut_after_shorter _ _ _ _ Hcut) as Hlt.
  destruct (_ && _); [|destruct (HasPrefix line _)];
    apply (IH (length rest)); auto; lia.
Qed.

(** X1: when the reader reports an error other than end of input, at
    whatever point of the data, [headerRewriter] returns nothing: it writes
    the error to stderr and ends the process with status 75; what was
    rewritten so far is discarded. *)
Theorem headerRewriter_read_error data e headers :
  headerRewriter (mkReader data (ErrRead e)) headers =
  ([Stderr ("Unexpected error occurred while reading input: " ++ e ++ nl)%string],
   Exited 75).
Proof.
  unfold headerRewriter. rewrite headerRewriter_loop_read_error.
  reflexivity.
Qed.

(** ** [headerRewriter]: which lines are removed *)

Lemma nth_map_at (f : bytes -> bool) ls j l :
  nth_error ls j = Some l -> nth j (map f ls) true = f l.
Proof.
  revert j; induction ls as [|x ls IH]; intros [|j]; simpl; try discriminate.
  - now intros [= ->].
  - apply IH.
Qed.

Lemma partial_line_not_terminated data l :
  In l match last_partial data with [] => [] | _ :: _ => [last_partial data] end ->
  terminated l = false.
Proof.
  destruct (split_lines_wf data) as (_ & Hp & _).
  destruct (last_partial data) as [|c t] eqn:E; [intros []|].
  intros [<- | []]. now apply not_terminated_no_LF.
Qed.

(** X2: the output is the synthesized headers (written, with the terminator
    of line 1, exactly when line 1 ends with a line feed) followed by the
    lines of the input in order, with some left out; the line at position
    [i] is left out if and only if it ends with a line feed and either
    begins with [From: ], or is line 1 and begins with [From ]. *)
Theorem line_removed_iff data headers :
  exists keep,
    headerRewriter (NewBuffer data) headers =
      ret ((if terminated (line1 data)
            then header_block headers (guessLineEnding (line1 data))
            else [])
           ++ concat (select keep 0 (lines data))) /\
    forall i l, nth_error (lines data) i = Some l ->
      (keep i = false <->
       terminated l = true /\
       (HasPrefix l (B "From: ") = true \/
        (i = 0%nat /\ HasPrefix l (B "From ") = true))).
Proof.
  rewrite headerRewriter_rewritten. unfold rewritten, line1.
  destruct (split_lines_wf data) as (Hwf & Hp & _).
  destruct (full_lines data) as [|l1 ls] eqn:Hfull.
  - exists (fun _ => true). unfold lines. rewrite Hfull. cbn [app].
    assert (Hnt : forall l,
      In l match last_partial data with
           | [] => [] | _ :: _ => [last_partial data] end ->
      terminated l = false) by apply partial_line_not_terminated.
    split.
    + rewrite select_all.
      destruct (last_partial data) as [|c t] eqn:E; cbn [hd concat].
      * reflexivity.
      * rewrite (Hnt (c :: t)) by now left. now rewrite app_nil_r.
    + intros i l Hnth. apply nth_error_In in Hnth. rewrite (Hnt l Hnth).
      split; [discriminate | intros [H _]; discriminate H].
  - rewrite (lines_full _ _ _ Hfull). cbn [hd].
    pose proof (Forall_inv Hwf) as Hwf1.
    pose proof (Forall_inv_tail Hwf) as Hwfs.
    rewrite (wf_line_terminated _ Hwf1).
    set (tail := match last_partial data with
                 | [] => [] | _ :: _ => [last_partial data] end).
    set (drop1 := HasPrefix l1 (B "From ") || HasPrefix l1 (B "From: ")).
    exists (fun i => nth i (negb drop1 :: map keep_line ls) true).
    split.
    + do 2 f_equal. cbn [select nth]. rewrite select_shift.
      cbn [nth]. rewrite select_filter.
      assert (Ht : concat tail = last_partial data).
      { unfold tail. destruct (last_partial data); simpl;
          now rewrite ?app_nil_r. }
      destruct drop1; cbn [negb concat]; now rewrite concat_app, Ht.
    + intros [|j] l Hnth; cbn [nth nth_error] in *.
      * injection Hnth as <-. rewrite (wf_line_terminated _ Hwf1).
        unfold drop1. rewrite negb_false_iff, orb_true_iff. split.
        -- intros [H|H]; split; auto.
        -- intros [_ [H | [_ H]]]; auto.
      * destruct (Nat.lt_ge_cases j (length ls)) as [Hj|Hj].
        -- rewrite nth_error_app1 in Hnth by assumption.
           rewrite (nth_map_at _ _ _ _ Hnth). unfold keep_line.
           rewrite negb_false_iff.
           assert (Hl : wf_line l).
           { eapply Forall_forall; [exact Hwfs |].
             eapply nth_error_In; eassumption. }
           rewrite (wf_line_terminated _ Hl). split.
           ++ intros H. split; auto.
           ++ intros [_ [H | [H _]]]; [assumption | discriminate H].
        -- rewrite nth_error_app2 in Hnth by assumption.
           apply nth_error_In in Hnth.
           rewrite (partial_line_not_terminated _ _ Hnth).
           rewrite nth_overflow by (rewrite length_map; lia).
           split; [discriminate | intros [H _]; discriminate H].
Qed.

Lemma line_removed_iff_witness :
  exists keep,
    headerRewriter (NewBuffer scenario_input) scenario_headers =
      ret ((if terminated (line1 scenario_input)
            then header_block scenario_headers
                   (guessLineEnding (line1 scenario_input))
            else [])
           ++ concat (select keep 0 (lines scenario_input))) /\
    nth_error (lines scenario_input) 1 = Some (B "From: Alice <a@b>" ++ CRLF) /\
    keep 1%nat = false.
Proof.
  destruct (line_removed_iff scenario_input scenario_headers)
    as (keep & Hout & Hiff).
  exists keep. split; [exact Hout|].
  assert (Hnth : nth_error (lines scenario_input) 1
                 = Some (B "From: Alice <a@b>" ++ CRLF)) by reflexivity.
  split; [exact Hnth|].
  apply (proj2 (Hiff 1%nat _ Hnth)). split; [reflexivity | left; reflexivity].
Defined.

(** ** [headerRewriter]: the round trip *)

(** X3: for every input whose line 1 ends with a line feed and does not
    begin with [From ], and none of whose lines begins with [From: ], the
    output is the synthesized headers, each followed by the terminator of
    line 1, followed by the input byte for byte. *)
Theorem rewrite_roundtrip data headers :
  terminated (line1 data) = true ->
  HasPrefix (line1 data) (B "From ") = false ->
  from_lines data = 0%nat ->
  headerRewriter (NewBuffer data) headers =
  ret (header_block headers (guessLineEnding (line1 data)) ++ data).
Proof.
  intros H1. exact (roundtrip_terminated data headers H1).
Qed.

Lemma rewrite_roundtrip_witness :
  headerRewriter
    (NewBuffer (B "Subject: hi" ++ CRLF ++ CRLF ++ B "body"))
    scenario_headers =
  ret (header_block scenario_headers CRLF ++
       B "Subject: hi" ++ CRLF ++ CRLF ++ B "body").
Proof.
  exact (rewrite_roundtrip (B "Subject: hi" ++ CRLF ++ CRLF ++ B "body")
           scenario_headers eq_refl eq_refl eq_refl).
Defined.

(** ** [headerRewriter]: input in two parts *)

Lemma terminated_split data :
  terminated data = true ->
  last_partial data = [] /\ full_lines data <> [].
Proof.
  intros H. apply HasSuffix_spec in H as [r Hr].
  destruct (split_lines_wf data) as (_ & Hp & Hcat).
  assert (Htail : last_partial data = []).
  { destruct (last_partial data) as [|c t] eqn:E; [reflexivity|].
    exfalso. destruct (exists_last (l := c :: t)) as (t' & x & Ex);
      [discriminate|].
    rewrite Ex, Hr, app_assoc in Hcat.
    apply app_inj_tail in Hcat as [_ ->].
    apply Hp. rewrite Ex. apply in_or_app. right. now left. }
  split; [exact Htail|].
  intros Hfull. rewrite Htail, Hfull in Hcat. simpl in Hcat.
  rewrite Hr in Hcat. now destruct r.
Qed.

Lemma split_lines_app d1 d2 :
  last_partial d1 = [] ->
  full_lines (d1 ++ d2) = full_lines d1 ++ full_lines d2 /\
  last_partial (d1 ++ d2) = last_partial d2.
Proof.
  intros H1.
  destruct (split_lines_wf d1) as (Hwf1 & _ & Hcat1).
  destruct (split_lines_wf d2) as (Hwf2 & Hp2 & Hcat2).
  rewrite H1, app_nil_r in Hcat1.
  assert (E : split_lines (d1 ++ d2)
              = (full_lines d1 ++ full_lines d2, last_partial d2)).
  { rewrite <- Hcat1 at 1. rewrite <- Hcat2 at 1.
    rewrite app_assoc, <- concat_app.
    apply split_lines_join; [|assumption]. apply Forall_app. now split. }
  unfold full_lines at 1, last_partial at 1. rewrite E. now split.
Qed.

(** X4: for an input in two parts, the first ending with a line feed,
    rewriting the whole is rewriting the first part and then running the
    loop on the second part, with the line counter where the first part
    left it: the headers are written once, for line 1 of the first part,
    and the second part is only filtered for [From: ] lines. *)
Theorem headerRewriter_app d1 d2 headers :
  terminated d1 = true ->
  headerRewriter (NewBuffer (d1 ++ d2)) headers =
  (head <- headerRewriter (NewBuffer d1) headers ;;
   headerRewriter_loop (NewBuffer d2)
     (Z.of_nat (length (full_lines d1))) head headers).
Proof.
  intros H1. destruct (terminated_split d1 H1) as [Htail Hfull].
  destruct (split_lines_app d1 d2 Htail) as [Hfl Hlp].
  rewrite !headerRewriter_rewritten, bind_ret.
  rewrite headerRewriter_loop_later
    by (destruct (full_lines d1); [congruence | cbn [length]; lia]).
  f_equal. unfold rewritten. rewrite Hfl, Hlp, Htail.
  destruct (full_lines d1) as [|l1 ls]; [congruence|].
  cbn [app]. rewrite filter_app, concat_app, app_nil_r, <- !app_assoc.
  reflexivity.
Qed.

Lemma headerRewriter_app_witness :
  headerRewriter
    (NewBuffer ((B "From x@y.com Mon Jan 1" ++ [LF] ++ B "Subject: hi" ++ [LF])
                ++ (B "From: Alice" ++ [LF] ++ B "body")))
    scenario_headers =
  (head <- headerRewriter
             (NewBuffer (B "From x@y.com Mon Jan 1" ++ [LF] ++
                         B "Subject: hi" ++ [LF]))
             scenario_headers ;;
   headerRewriter_loop (NewBuffer (B "From: Alice" ++ [LF] ++ B "body"))
     2 head scenario_headers).
Proof.
  exact (headerRewriter_app
           (B "From x@y.com Mon Jan 1" ++ [LF] ++ B "Subject: hi" ++ [LF])
           (B "From: Alice" ++ [LF] ++ B "body") scenario_headers eq_refl).
Defined.

(** ** [lookupTCP]: what a result tells about the response *)

Lemma digit_range c :
  ((48 <=? Z.of_N (N_of_ascii c)) && (Z.of_N (N_of_ascii c) <=? 57))%Z = true ->
  (48 <= Z.of_N (N_of_ascii c) <= 57)%Z.
Proof.
  rewrite andb_true_iff, !Z.leb_le. tauto.
Qed.

Lemma ascii_of_code c n :
  Z.of_N (N_of_ascii c) = Z.of_N n -> c = ascii_of_N n.
Proof.
  intros H. rewrite <- (ascii_N_embedding c). f_equal. lia.
Qed.

(** Three bytes that [Atoi] reads as a number of at least 100 are its three
    decimal digits. *)
Lemma Atoi_three_digits a b c n :
  Atoi (String a (String b (String c EmptyString))) = Some n ->
  (100 <= n)%Z ->
  exists x y z,
    (0 <= x <= 9 /\ 0 <= y <= 9 /\ 0 <= z <= 9 /\ n = 100 * x + 10 * y + z /\
     Z.of_N (N_of_ascii a) = 48 + x /\
     Z.of_N (N_of_ascii b) = 48 + y /\
     Z.of_N (N_of_ascii c) = 48 + z)%Z.
Proof.
  unfold Atoi. intros H Hn.
  destruct (Ascii.eqb a "-"); [|destruct (Ascii.eqb a "+")];
    cbn [atoi_digits option_map] in H.
  - exfalso.
    destruct (_ && _) eqn:Eb in H; [|discriminate H].
    destruct (_ && _) eqn:Ec in H; [|discriminate H].
    apply digit_range in Eb, Ec. injection H as <-. lia.
  - exfalso.
    destruct (_ && _) eqn:Eb in H; [|discriminate H].
    destruct (_ && _) eqn:Ec in H; [|discriminate H].
    apply digit_range in Eb, Ec. injection H as <-. lia.
  - destruct (_ && _) eqn:Ea in H; [|discriminate H].
    destruct (_ && _) eqn:Eb in H; [|discriminate H].
    destruct (_ && _) eqn:Ec in H; [|discriminate H].
    apply digit_range in Ea, Eb, Ec. injection H as <-.
    exists (Z.of_N (N_of_ascii a) - 48)%Z, (Z.of_N (N_of_ascii b) - 48)%Z,
           (Z.of_N (N_of_ascii c) - 48)%Z. lia.
Qed.

(** A response line that [ReadCodeLine] accepts is three decimal digits, a
    space and the message. *)
Lemma ReadCodeLine_accepts line code msg :
  ReadCodeLine line (-1) = (code, msg, None) ->
  exists a b c,
    line = String a (String b (String c (String " " msg))) /\
    Atoi (String a (String b (String c EmptyString))) = Some code /\
    (100 <= code)%Z.
Proof.
  unfold ReadCodeLine, parseCodeLine, from_index.
  destruct line as [|a [|b [|c [|d rest]]]]; try discriminate.
  cbn [String.length Nat.ltb Nat.leb get is_byte orb substring Nat.sub].
  destruct (Ascii.eqb d " ") eqn:Ed.
  - apply Ascii.eqb_eq in Ed. subst d. cbn [negb andb Ascii.eqb Bool.eqb].
    destruct (Atoi _) as [v|] eqn:EA; [|discriminate].
    destruct (v <? 100)%Z eqn:Ev; [discriminate|].
    cbn. rewrite Nat.sub_0_r, substring_all. intros [= <- <-].
    exists a, b, c. apply Z.ltb_ge in Ev. auto.
  - cbn [negb andb]. destruct (Ascii.eqb d "-") eqn:Ed'; cbn [negb].
    + destruct (Atoi _) as [v|]; [|discriminate].
      destruct (v <? 100)%Z; [discriminate|]. cbn. discriminate.
    + discriminate.
Qed.

Lemma ReadCodeLine_200 line msg :
  ReadCodeLine line (-1) = (200%Z, msg, None) -> line = ("200 " ++ msg)%string.
Proof.
  intros H. apply ReadCodeLine_accepts in H as (a & b & c & -> & HA & Hc).
  destruct (Atoi_three_digits _ _ _ _ HA Hc)
    as (x & y & z & Hx & Hy & Hz & Hn & Ha & Hb & Hcc).
  assert (x = 2 /\ y = 0 /\ z = 0)%Z as (-> & -> & ->) by lia.
  rewrite (ascii_of_code a 50), (ascii_of_code b 48), (ascii_of_code c 48)
    by assumption.
  reflexivity.
Qed.

Lemma ReadCodeLine_500 line msg :
  ReadCodeLine line (-1) = (500%Z, msg, None) -> line = ("500 " ++ msg)%string.
Proof.
  intros H. apply ReadCodeLine_accepts in H as (a & b & c & -> & HA & Hc).
  destruct (Atoi_three_digits _ _ _ _ HA Hc)
    as (x & y & z & Hx & Hy & Hz & Hn & Ha & Hb & Hcc).
  assert (x = 5 /\ y = 0 /\ z = 0)%Z as (-> & -> & ->) by lia.
  rewrite (ascii_of_code a 53), (ascii_of_code b 48), (ascii_of_code c 48)
    by assumption.
  reflexivity.
Qed.

(** X5: what a result of [lookupTCP] tells.  A result without error comes
    from a response line [200 msg], and is [msg] with nothing written to
    stderr, or from a response line [500 msg], and is the key after one
    warning; no other response, and no failure, yields an address.  A
    result with an error carries the empty string and nothing was
    written. *)
Theorem lookupTCP_result net addr key tr v err :
  lookupTCP net addr key = (tr, Ret (v, err)) ->
  match err with
  | None =>
      exists msg,
        (net addr ("get " ++ key)%string = Replies ("200 " ++ msg)%string /\
         v = msg /\ tr = []) \/
        (net addr ("get " ++ key)%string = Replies ("500 " ++ msg)%string /\
         v = key /\
         tr = [Stderr ("warning: srs: returncode 500 (" ++ msg ++ ")" ++ nl)%string])
  | Some _ => v = "" /\ tr = []
  end.
Proof.
  unfold lookupTCP.
  destruct (net addr ("get " ++ key)%string) as [e|e|e|line];
    try (intros [= <- <- <-]; now split).
  destruct (ReadCodeLine line (-1)) as [[code msg] [e|]] eqn:Hread;
    [intros [= <- <- <-]; now split|].
  destruct (code =? 200)%Z eqn:E200.
  - apply Z.eqb_eq in E200. subst code. intros [= <- <- <-].
    exists msg. left. now rewrite (ReadCodeLine_200 _ _ Hread).
  - destruct (code =? 500)%Z eqn:E500.
    + apply Z.eqb_eq in E500. subst code. cbn. intros [= <- <- <-].
      exists msg. right. now rewrite (ReadCodeLine_500 _ _ Hread).
    + intros [= <- <- <-]. now split.
Qed.

Lemma lookupTCP_result_witness :
  exists msg,
    (srs_example "500 anything" "localhost:10001" "get x@y.com"
       = Replies ("200 " ++ msg)%string /\
     "x@y.com" = msg /\
     [Stderr ("warning: srs: returncode 500 (anything)" ++ nl)%string] = []) \/
    (srs_example "500 anything" "localhost:10001" "get x@y.com"
       = Replies ("500 " ++ msg)%string /\
     "x@y.com" = "x@y.com" /\
     [Stderr ("warning: srs: returncode 500 (anything)" ++ nl)%string]
     = [Stderr ("warning: srs: returncode 500 (" ++ msg ++ ")" ++ nl)%string]).
Proof.
  exact (lookupTCP_result (srs_example "500 anything") "localhost:10001"
           "x@y.com" _ _ None eq_refl).
Defined.

(** ** [main]: a run whose lookup succeeds *)

Lemma strip_ends_nonempty s key :
  strip_ends s = ret key -> (s =? "")%string = false.
Proof.
  intros H. apply nonempty_not_empty, slice_returns_iff. now exists key.
Qed.

(** The whole run, once the message parsed, the return path was extracted
    and the lookup returned an address. *)
Lemma main_run fl w h buffer rest key tr v :
  has_char "000" (path fl) = false ->
  ReadMessage w = (inr h, buffer, rest) ->
  strip_ends (Get h (rpHeader fl)) = ret key ->
  lookupTCP (srs w) (srsAddr fl) key = (tr, Ret (v, None)) ->
  exists trH hostname head,
    getHostname w = (trH, Ret hostname) /\
    existsb is_delivery trH = false /\
    headerRewriter (NewBuffer buffer)
      (extraHeaders_of hostname (now w) (Get h (rpHeader fl))) = ret head /\
    main fl w =
    if dryRun fl then
      (trH ++ tr ++
       [Stdout (B ("Would call sendmail with args: " ++
                   show_args (sendmail_args fl h v) ++ nl)%string);
        Stdout (B ("Would pipe the following data into sendmail:" ++
                   nl ++ nl)%string);
        Stdout (head ++ concat rest)],
       Exited 0%Z)
    else
      (trH ++ tr ++
       ExecSendmail (sendmailPath fl) (sendmail_args fl h v)
                    (head ++ concat rest) ::
       match sendmail_run w (sendmailPath fl) (sendmail_args fl h v)
                          (head ++ concat rest) with
       | Some e =>
           [Stderr ("Error delivering message to sendmail: " ++ e ++ nl)%string]
       | None => []
       end,
       match sendmail_run w (sendmailPath fl) (sendmail_args fl h v)
                          (head ++ concat rest) with
       | Some _ => Exited ExTempFail
       | None => Ret tt
       end).
Proof.
  intros Hpath HRM Hslice Hlook.
  destruct (getHostname_returns w) as (trH & hostname & HH & HdH).
  exists trH, hostname,
    (rewritten buffer (extraHeaders_of hostname (now w) (Get h (rpHeader fl)))).
  split; [exact HH | split; [exact HdH | split]].
  - apply headerRewriter_rewritten.
  - unfold main. rewrite (set_path_returns fl Hpath), bind_ret, HRM.
    rewrite (strip_ends_nonempty _ _ Hslice), bind_ret, HH.
    unfold strip_ends in Hslice. cbn [bind]. rewrite Hslice, bind_ret, Hlook.
    cbn [bind]. rewrite headerRewriter_rewritten, bind_ret.
    unfold sendmail_args, fromName_of, extraHeaders_of.
    destruct (dryRun fl).
    + cbn [bind emit exit ret die app]. rewrite ?app_nil_r. reflexivity.
    + destruct (sendmail_run w _ _ _); cbn [bind emit exit ret die app];
        rewrite ?app_nil_r; reflexivity.
Qed.

Lemma no_delivery_filter tr :
  existsb is_delivery tr = false -> filter is_delivery tr = [].
Proof.
  induction tr as [|e tr IH]; simpl; [reflexivity|].
  destruct (is_delivery e); [discriminate | exact IH].
Qed.

(** X6: in a run that is not a dry run, once the message parsed, the return
    path was extracted and the lookup returned an address, the delivery
    program is invoked exactly once: with the arguments [-i -f], the
    address the lookup returned, [-F], the full name, then the caller's
    arguments; on the rewrite of the captured buffer (under the [Received]
    and [X-Original-Return-Path] headers, the latter with the return path as
    it was in the message) followed by the rest of standard input, which
    together with the buffer is the whole input.  The process ends with
    status 0 when the delivery program succeeds and 75 when it fails. *)
Theorem main_invokes_sendmail fl w h buffer rest key tr v :
  has_char "000" (path fl) = false ->
  ReadMessage w = (inr h, buffer, rest) ->
  strip_ends (Get h (rpHeader fl)) = ret key ->
  lookupTCP (srs w) (srsAddr fl) key = (tr, Ret (v, None)) ->
  dryRun fl = false ->
  exists trH hostname head,
    getHostname w = (trH, Ret hostname) /\
    headerRewriter (NewBuffer buffer)
      (extraHeaders_of hostname (now w) (Get h (rpHeader fl))) = ret head /\
    buffer ++ concat rest = concat (stdin_reads w) /\
    filter is_delivery (trace (main fl w)) =
      [ExecSendmail (sendmailPath fl) (sendmail_args fl h v)
                    (head ++ concat rest)] /\
    exit_status (main fl w) =
      match sendmail_run w (sendmailPath fl) (sendmail_args fl h v)
                         (head ++ concat rest) with
      | Some _ => 75%Z
      | None => 0%Z
      end.
Proof.
  intros Hpath HRM Hslice Hlook Hdry.
  destruct (main_run fl w h buffer rest key tr v Hpath HRM Hslice Hlook)
    as (trH & hostname & head & HH & HdH & Hhead & Hmain).
  exists trH, hostname, head.
  split; [exact HH | split; [exact Hhead | split]].
  - eapply ReadMessage_split; eassumption.
  - rewrite Hmain, Hdry. unfold exit_status, trace, outcome. cbn [fst snd].
    rewrite !filter_app, (no_delivery_filter _ HdH),
      (no_delivery_filter _ (lookupTCP_no_delivery _ _ _ _ _ Hlook)).
    destruct (sendmail_run w _ _ _); split; reflexivity.
Qed.

Lemma main_invokes_sendmail_witness :
  exists trH hostname head,
    getHostname world_with_body = (trH, Ret hostname) /\
    headerRewriter (NewBuffer message_with_body)
      (extraHeaders_of hostname (now world_with_body) "<x@y.com>") = ret head /\
    message_with_body ++ concat [] = concat (stdin_reads world_with_body) /\
    filter is_delivery (trace (main (example_flags false) world_with_body)) =
      [ExecSendmail "sendmail"
         (sendmail_args (example_flags false) (header_of "<x@y.com>" "") "x@y.com")
         (head ++ concat [])] /\
    exit_status (main (example_flags false) world_with_body) = 0%Z.
Proof.
  exact (main_invokes_sendmail (example_flags false) world_with_body
           (header_of "<x@y.com>" "") message_with_body [] "x@y.com" [] "x@y.com"
           eq_refl eq_refl eq_refl eq_refl eq_refl).
Defined.

(** X7: a dry run shows what a real run does.  With the same message and
    the same lookup, the dry run invokes nothing, prints the arguments and
    then the data, and ends with status 0; the real run invokes the
    delivery program with those arguments on that data, after the same
    events. *)
Theorem dry_run_shows_delivery fl w h buffer rest key tr v :
  has_char "000" (path fl) = false ->
  ReadMessage w = (inr h, buffer, rest) ->
  strip_ends (Get h (rpHeader fl)) = ret key ->
  lookupTCP (srs w) (srsAddr fl) key = (tr, Ret (v, None)) ->
  exists before args data after,
    existsb is_delivery before = false /\
    main (with_dryRun true fl) w =
      (before ++
       [Stdout (B ("Would call sendmail with args: " ++
                   show_args args ++ nl)%string);
        Stdout (B ("Would pipe the following data into sendmail:" ++
                   nl ++ nl)%string);
        Stdout data],
       Exited 0%Z) /\
    trace (main (with_dryRun false fl) w) =
      before ++ ExecSendmail (sendmailPath fl) args data :: after /\
    existsb is_delivery after = false.
Proof.
  intros Hpath HRM Hslice Hlook.
  destruct (main_run (with_dryRun true fl) w h buffer rest key tr v
              Hpath HRM Hslice Hlook)
    as (trH & hostname & head & HH & HdH & Hhead & Hdry).
  destruct (main_run (with_dryRun false fl) w h buffer rest key tr v
              Hpath HRM Hslice Hlook)
    as (trH' & hostname' & head' & HH' & _ & Hhead' & Hreal).
  rewrite HH in HH'. injection HH' as <- <-.
  cbn [with_dryRun rpHeader] in Hhead, Hhead'.
  rewrite Hhead in Hhead'. injection Hhead' as <-.
  cbn [with_dryRun dryRun sendmailPath] in Hdry, Hreal.
  exists (trH ++ tr), (sendmail_args fl h v), (head ++ concat rest).
  eexists. split; [|split; [|split]].
  - rewrite existsb_app, HdH.
    now rewrite (lookupTCP_no_delivery _ _ _ _ _ Hlook).
  - rewrite Hdry, <- app_assoc. reflexivity.
  - rewrite Hreal. unfold trace. cbn [fst]. rewrite <- app_assoc. reflexivity.
  - destruct (sendmail_run w _ _ _); reflexivity.
Qed.

Lemma dry_run_shows_delivery_witness :
  exists before args data after,
    existsb is_delivery before = false /\
    main (with_dryRun true (example_flags false)) world_with_body =
      (before ++
       [Stdout (B ("Would call sendmail with args: " ++
                   show_args args ++ nl)%string);
        Stdout (B ("Would pipe the following data into sendmail:" ++
                   nl ++ nl)%string);
        Stdout data],
       Exited 0%Z) /\
    trace (main (with_dryRun false (example_flags false)) world_with_body) =
      before ++ ExecSendmail "sendmail" args data :: after /\
    existsb is_delivery after = false.
Proof.
  exact (dry_run_shows_delivery (example_flags false) world_with_body
           (header_of "<x@y.com>" "") message_with_body [] "x@y.com" [] "x@y.com"
           eq_refl eq_refl eq_refl eq_refl).
Defined.

(** ** [main]: every run *)

Lemma set_path_fails fl :
  has_char "000" (path fl) = true ->
  (if negb (path fl =? "")%string then
     match Setenv "PATH" (path fl) with
     | Some err => die ("Unable to set $PATH: " ++ err)%string ExTempFail
     | None => ret tt
     end
   else ret tt) =
  die "Unable to set $PATH: setenv: invalid argument" ExTempFail.
Proof.
  intros E. destruct (path fl) as [|c s]; [discriminate E|].
  assert (HS : Setenv "PATH" (String c s) = Some "setenv: invalid argument").
  { unfold Setenv. rewrite E. reflexivity. }
  rewrite HS. reflexivity.
Qed.

Lemma strip_ends_cases s :
  (s =? "")%string = false ->
  (exists key, strip_ends s = ret key) \/
  (String.length s = 1%nat /\
   strip_ends s = panic "runtime error: slice bounds out of range [1:0]").
Proof.
  intros Hs. destruct s as [|a [|b s]]; [discriminate Hs | right | left].
  - split; reflexivity.
  - apply (proj2 (slice_returns_iff _)). cbn [String.length]. lia.
Qed.

(** The stages of [main], in order: each run stops at the first that
    fails. *)
Lemma main_cases fl w :
  (has_char "000" (path fl) = true /\
   main fl w = die "Unable to set $PATH: setenv: invalid argument" ExTempFail) \/
  (has_char "000" (path fl) = false /\
   ((exists err buffer rest,
       ReadMessage w = (inl err, buffer, rest) /\
       main fl w = die ("Parse error: " ++ err)%string ExDataErr) \/
    (exists h buffer rest,
       ReadMessage w = (inr h, buffer, rest) /\
       (Get h (rpHeader fl) = "" /\
        main fl w =
          die "Parse error: Missing return-path header in message" ExDataErr
        \/
        String.length (Get h (rpHeader fl)) = 1%nat /\
        main fl w =
          (fst (getHostname w),
           Panicked "runtime error: slice bounds out of range [1:0]")
        \/
        exists key tr v err,
          strip_ends (Get h (rpHeader fl)) = ret key /\
          lookupTCP (srs w) (srsAddr fl) key = (tr, Ret (v, err)) /\
          match err with
          | Some e =>
              main fl w =
                (fst (getHostname w) ++ tr ++
                 [Stderr ("SRS lookup error: " ++ e ++ nl)%string],
                 Exited ExTempFail)
          | None => True
          end)))).
Proof.
  destruct (has_char "000" (path fl)) eqn:Hpath.
  { left. split; [reflexivity|].
    unfold main. rewrite (set_path_fails fl Hpath). reflexivity. }
  right. split; [reflexivity|].
  unfold main. rewrite (set_path_returns fl Hpath), bind_ret.
  destruct (ReadMessage w) as [[[err|h] buffer] rest] eqn:HRM.
  { left. now exists err, buffer, rest. }
  right. exists h, buffer, rest. split; [reflexivity|].
  destruct (Get h (rpHeader fl) =? "")%string eqn:Hv.
  { left. apply String.eqb_eq in Hv. now split. }
  right. rewrite bind_ret.
  destruct (getHostname_returns w) as (trH & hostname & HH & _).
  rewrite HH. cbn [fst bind].
  destruct (strip_ends_cases _ Hv) as [[key Hkey] | [Hlen Hpanic]].
  - right. unfold strip_ends in Hkey. rewrite Hkey, bind_ret.
    destruct (lookupTCP_shape (srs w) (srsAddr fl) key)
      as (tr & v & err & Hlook & _).
    exists key, tr, v, err. split; [exact Hkey | split; [exact Hlook|]].
    destruct err as [e|]; [|exact I].
    rewrite Hlook. cbn [bind emit exit ret die app]. reflexivity.
  - left. split; [exact Hlen|]. unfold strip_ends in Hpanic.
    rewrite Hpanic. cbn. now rewrite app_nil_r.
Qed.

(** X8: the delivery program is invoked only when every stage before it
    succeeded: the run is not a dry run, the message parsed, the return
    path was extracted, and the lookup returned an address without
    error. *)
Theorem delivery_needs_every_stage fl w :
  delivered (main fl w) = true ->
  dryRun fl = false /\
  exists h buffer rest key tr v,
    ReadMessage w = (inr h, buffer, rest) /\
    strip_ends (Get h (rpHeader fl)) = ret key /\
    lookupTCP (srs w) (srsAddr fl) key = (tr, Ret (v, None)).
Proof.
  intros Hd. unfold delivered in Hd.
  destruct (main_cases fl w) as [[_ He] | [Hpath Hc]].
  { rewrite He in Hd. discriminate Hd. }
  destruct Hc as [(err & buffer & rest & _ & Hm) | (h & buffer & rest & HRM & Hc)].
  { rewrite Hm in Hd. discriminate Hd. }
  destruct (getHostname_returns w) as (trH & hostname & HH & HdH).
  destruct Hc as [[_ Hm] | [[_ Hm] | (key & tr & v & err & Hkey & Hlook & Hm)]].
  - rewrite Hm in Hd. discriminate Hd.
  - rewrite Hm, HH in Hd. unfold trace in Hd. cbn [fst] in Hd. congruence.
  - destruct err as [e|].
    + rewrite Hm, HH in Hd. unfold trace in Hd. cbn [fst] in Hd.
      rewrite !existsb_app, HdH in Hd.
      rewrite (lookupTCP_no_delivery _ _ _ _ _ Hlook) in Hd. discriminate Hd.
    + split; [|now exists h, buffer, rest, key, tr, v].
      destruct (main_run fl w h buffer rest key tr v Hpath HRM Hkey Hlook)
        as (trH' & hostname' & head & HH' & _ & _ & Hmain).
      destruct (dryRun fl); [|reflexivity].
      rewrite HH in HH'. injection HH' as <- <-.
      rewrite Hmain in Hd. unfold trace in Hd. cbn [fst] in Hd.
      rewrite !existsb_app, HdH in Hd.
      rewrite (lookupTCP_no_delivery _ _ _ _ _ Hlook) in Hd. discriminate Hd.
Qed.

Lemma delivery_needs_every_stage_witness :
  dryRun (example_flags false) = false /\
  exists h buffer rest key tr v,
    ReadMessage world_with_body = (inr h, buffer, rest) /\
    strip_ends (Get h (rpHeader (example_flags false))) = ret key /\
    lookupTCP (srs world_with_body) (srsAddr (example_flags false)) key
    = (tr, Ret (v, None)).
Proof.
  exact (delivery_needs_every_stage (example_flags false) world_with_body
           eq_refl).
Defined.

(** X9: a run ends with status 0, 65 or 75, or with a panic; it ends with
    a panic, status 2, exactly in the runs where the message parsed and the
    value of the return-path header is one byte long (setting [PATH] not
    having failed). *)
Theorem exit_status_cases fl w :
  (exit_status (main fl w) = 0%Z \/ exit_status (main fl w) = 65%Z \/
   exit_status (main fl w) = 75%Z \/ exit_status (main fl w) = 2%Z) /\
  ((exists msg, outcome (main fl w) = Panicked msg) <->
   (has_char "000" (path fl) = false /\
    exists h buffer rest,
      ReadMessage w = (inr h, buffer, rest) /\
      String.length (Get h (rpHeader fl)) = 1%nat)).
Proof.
  destruct (main_cases fl w) as [[Hnul He] | [Hpath Hc]].
  { rewrite He. split; [right; right; left; reflexivity|].
    split; [intros [msg H]; discriminate H|].
    intros [Hp _]. congruence. }
  destruct Hc as [(err & buffer & rest & HRM & Hm) | (h & buffer & rest & HRM & Hc)].
  { rewrite Hm. split; [right; left; reflexivity|].
    split; [intros [msg H]; discriminate H|].
    intros [_ (h & b & r & HRM' & _)]. congruence. }
  destruct Hc as [[Hv Hm] | [[Hlen Hm] | (key & tr & v & err & Hkey & Hlook & Hm)]].
  - rewrite Hm. split; [right; left; reflexivity|].
    split; [intros [msg H]; discriminate H|].
    intros [_ (h' & b & r & HRM' & Hlen)].
    rewrite HRM in HRM'. injection HRM' as <- <- <-.
    rewrite Hv in Hlen. discriminate Hlen.
  - rewrite Hm. split; [right; right; right; reflexivity|].
    split; [intros _ | intros _; eexists; reflexivity].
    split; [exact Hpath | now exists h, buffer, rest].
  - assert (Hlen : (2 <= String.length (Get h (rpHeader fl)))%nat)
      by (apply slice_returns_iff; now exists key).
    assert (Hno : ~ (has_char "000" (path fl) = false /\
              exists h' b r, ReadMessage w = (inr h', b, r) /\
                String.length (Get h' (rpHeader fl)) = 1%nat)).
    { intros [_ (h' & b & r & HRM' & Hone)].
      rewrite HRM in HRM'. injection HRM' as <- <- <-. lia. }
    destruct err as [e|].
    + rewrite Hm. split; [right; right; left; reflexivity|].
      split; [intros [msg H]; discriminate H | intros H; now elim Hno].
    + destruct (main_run fl w h buffer rest key tr v Hpath HRM Hkey Hlook)
        as (trH & hostname & head & _ & _ & _ & Hmain).
      rewrite Hmain.
      destruct (dryRun fl); [|destruct (sendmail_run w _ _ _)].
      * split; [left; reflexivity|].
        split; [intros [msg H]; discriminate H | intros H; now elim Hno].
      * split; [right; right; left; reflexivity|].
        split; [intros [msg H]; discriminate H | intros H; now elim Hno].
      * split; [left; reflexivity|].
        split; [intros [msg H]; discriminate H | intros H; now elim Hno].
Qed.

Lemma exit_status_cases_witness :
  exists msg,
    outcome (main (example_flags false) world_one_char) = Panicked msg.
Proof.
  refine (proj2 (proj2 (exit_status_cases (example_flags false) world_one_char))
            (conj eq_refl _)).
  exists (header_of "x" ""),
         (B "Return-Path: x" ++ [LF] ++ [LF] ++ B "body" ++ [LF]), [].
  split; reflexivity.
Defined.

(** ** [main]: a return path in brackets *)

Lemma length_append s t :
  String.length (s ++ t)%string = (String.length s + String.length t)%nat.
Proof.
  induction s as [|c s IH]; simpl; [reflexivity | now rewrite IH].
Qed.

Lemma substring_prefix s t :
  substring 0 (String.length s) (s ++ t)%string = s.
Proof.
  induction s as [|c s IH]; simpl.
  - now destruct t.
  - now rewrite IH.
Qed.

Lemma strip_ends_middle a b s :
  strip_ends (String a (s ++ String b EmptyString)) = ret s.
Proof.
  unfold strip_ends. rewrite slice_middle
    by (cbn [String.length]; rewrite length_append; cbn; lia).
  f_equal. cbn [String.length]. rewrite length_append. cbn [String.length].
  replace (S (String.length s + 1) - 2)%nat with (String.length s) by lia.
  cbn [substring]. apply substring_prefix.
Qed.

(** X10: when the value of the return-path header is an address between
    [<] and [>], the lookup is made for the address without the brackets,
    and the address the lookup returns is the one passed to the delivery
    program after [-f]. *)
Theorem bracketed_return_path fl w h buffer rest addr tr v :
  has_char "000" (path fl) = false ->
  ReadMessage w = (inr h, buffer, rest) ->
  Get h (rpHeader fl) = ("<" ++ addr ++ ">")%string ->
  lookupTCP (srs w) (srsAddr fl) addr = (tr, Ret (v, None)) ->
  dryRun fl = false ->
  exists data,
    filter is_delivery (trace (main fl w)) =
    [ExecSendmail (sendmailPath fl)
       (["-i"; "-f"; v; "-F"; fromName_of h] ++ Args fl) data].
Proof.
  intros Hpath HRM Hv Hlook Hdry.
  assert (Hkey : strip_ends (Get h (rpHeader fl)) = ret addr)
    by (rewrite Hv; apply strip_ends_middle).
  destruct (main_run fl w h buffer rest addr tr v Hpath HRM Hkey Hlook)
    as (trH & hostname & head & _ & HdH & _ & Hmain).
  exists (head ++ concat rest).
  rewrite Hmain, Hdry. unfold trace. cbn [fst].
  rewrite !filter_app, (no_delivery_filter _ HdH),
    (no_delivery_filter _ (lookupTCP_no_delivery _ _ _ _ _ Hlook)).
  destruct (sendmail_run w _ _ _); reflexivity.
Qed.

Lemma bracketed_return_path_witness :
  exists data,
    filter is_delivery (trace (main (example_flags false) world_with_body)) =
    [ExecSendmail "sendmail"
       (["-i"; "-f"; "x@y.com"; "-F"; fromName_of (header_of "<x@y.com>" "")]
        ++ ["user@example.net"]) data].
Proof.
  exact (bracketed_return_path (example_flags false) world_with_body
           (header_of "<x@y.com>" "") message_with_body [] "x@y.com" []
           "x@y.com" eq_refl eq_refl eq_refl eq_refl eq_refl).
Defined.

(** ** [main]: a message that passes unchanged *)

(** X11: in a run that delivers, when line 1 of the captured buffer ends
    with a line feed and does not begin with [From ], and no line of the
    buffer begins with [From: ], the delivery program receives the two
    synthesized headers, each with the terminator of line 1, followed by
    the whole of standard input byte for byte. *)
Theorem message_forwarded_whole fl w h buffer rest key tr v :
  has_char "000" (path fl) = false ->
  ReadMessage w = (inr h, buffer, rest) ->
  strip_ends (Get h (rpHeader fl)) = ret key ->
  lookupTCP (srs w) (srsAddr fl) key = (tr, Ret (v, None)) ->
  dryRun fl = false ->
  terminated (line1 buffer) = true ->
  HasPrefix (line1 buffer) (B "From ") = false ->
  from_lines buffer = 0%nat ->
  exists trH hostname,
    getHostname w = (trH, Ret hostname) /\
    filter is_delivery (trace (main fl w)) =
    [ExecSendmail (sendmailPath fl) (sendmail_args fl h v)
       (header_block
          (extraHeaders_of hostname (now w) (Get h (rpHeader fl)))
          (guessLineEnding (line1 buffer))
        ++ concat (stdin_reads w))].
Proof.
  intros Hpath HRM Hkey Hlook Hdry H1 Henv Hfrom.
  destruct (main_run fl w h buffer rest key tr v Hpath HRM Hkey Hlook)
    as (trH & hostname & head & HH & HdH & Hhead & Hmain).
  exists trH, hostname. split; [exact HH|].
  rewrite (roundtrip_terminated buffer _ H1 Henv Hfrom) in Hhead.
  injection Hhead as <-.
  rewrite Hmain, Hdry. unfold trace. cbn [fst].
  rewrite !filter_app, (no_delivery_filter _ HdH),
    (no_delivery_filter _ (lookupTCP_no_delivery _ _ _ _ _ Hlook)).
  pose proof (ReadMessage_split _ _ _ _ HRM) as Hsplit.
  destruct (sendmail_run w _ _ _); cbn [filter is_delivery app];
    rewrite <- app_assoc, Hsplit; reflexivity.
Qed.

Lemma message_forwarded_whole_witness :
  exists trH hostname,
    getHostname world_unbracketed = (trH, Ret hostname) /\
    filter is_delivery (trace (main (example_flags false) world_unbracketed)) =
    [ExecSendmail "sendmail"
       (sendmail_args (example_flags false) (header_of "x@y.com" "") "get @y.co")
       (header_block
          (extraHeaders_of hostname (now world_unbracketed) "x@y.com")
          (guessLineEnding
             (line1 (B "Return-Path: x@y.com" ++ [LF] ++ [LF] ++ B "body" ++ [LF])))
        ++ concat (stdin_reads world_unbracketed))].
Proof.
  exact (message_forwarded_whole (example_flags false) world_unbracketed
           (header_of "x@y.com" "")
           (B "Return-Path: x@y.com" ++ [LF] ++ [LF] ++ B "body" ++ [LF]) []
           "@y.co" [] "get @y.co"
           eq_refl eq_refl eq_refl eq_refl eq_refl eq_refl eq_refl eq_refl).
Defined.

(** ** [getHostname] *)

Lemma trim_left_spaces pre b :
  forallb asciiSpace pre = true -> trim_left (pre ++ b) = trim_left b.
Proof.
  induction pre as [|c pre IH]; simpl; [reflexivity|].
  destruct (asciiSpace c); [exact IH | discriminate].
Qed.

Lemma trim_left_all b : forallb asciiSpace b = true -> trim_left b = [].
Proof.
  induction b as [|c b IH]; simpl; [reflexivity|].
  destruct (asciiSpace c); [exact IH | discriminate].
Qed.

Lemma trim_left_visible b :
  (forall c, hd_error b = Some c -> visible c = true) -> trim_left b = b.
Proof.
  destruct b as [|c b]; [reflexivity|]. intros H.
  specialize (H c eq_refl). unfold visible in H.
  apply andb_true_iff in H as [_ H]. apply negb_true_iff in H.
  simpl. now rewrite H.
Qed.

Lemma forallb_rev {A} (f : A -> bool) l :
  forallb f l = true -> forallb f (rev l) = true.
Proof.
  rewrite !forallb_forall. intros H x Hx. apply H. now apply in_rev.
Qed.

Lemma TrimSpace_padded pre name post :
  forallb asciiSpace pre = true ->
  forallb asciiSpace post = true ->
  (forall c, hd_error name = Some c -> visible c = true) ->
  (forall c, hd_error (rev name) = Some c -> visible c = true) ->
  TrimSpace (pre ++ name ++ post) = name.
Proof.
  intros Hpre Hpost Hfirst Hlast. unfold TrimSpace.
  rewrite trim_left_spaces by assumption.
  destruct name as [|c m] eqn:En.
  - cbn [app]. now rewrite (trim_left_all post Hpost).
  - rewrite <- En in *.
    assert (E1 : trim_left (name ++ post) = name ++ post).
    { apply trim_left_visible. intros x Hx. apply Hfirst.
      rewrite En in *. exact Hx. }
    rewrite E1, rev_app_distr.
    rewrite (trim_left_spaces (rev post)) by now apply forallb_rev.
    rewrite (trim_left_visible (rev name)) by assumption.
    apply rev_involutive.
Qed.

(** X12: [getHostname] always returns a name, after running [postconf]
    once.  When [postconf] fails it writes one warning to stderr and returns
    the name [os.Hostname()] gives.  When [postconf] prints a name with
    white space around it (the line terminator after it, for one), the
    name begins and ends with an ASCII byte that is not white space, and
    [getHostname] returns the name alone, with nothing written to
    stderr. *)
Theorem getHostname_result w :
  (forall err, postconf w = inl err ->
     getHostname w =
     ([ExecPostconf;
       Stderr ("warning: unable to get hostname from postfix (" ++ err ++ ")"
               ++ nl)%string],
      Ret (os_hostname w))) /\
  (forall pre name post,
     postconf w = inr (pre ++ B name ++ post) ->
     forallb asciiSpace pre = true ->
     forallb asciiSpace post = true ->
     (forall c, hd_error (B name) = Some c -> visible c = true) ->
     (forall c, hd_error (rev (B name)) = Some c -> visible c = true) ->
     getHostname w = ([ExecPostconf], Ret name)).
Proof.
  unfold getHostname. split.
  - intros err ->. reflexivity.
  - intros pre name post -> Hpre Hpost Hfirst Hlast.
    rewrite TrimSpace_padded by assumption.
    unfold S_, B. rewrite string_of_list_byte_of_string. reflexivity.
Qed.

Lemma getHostname_result_witness :
  getHostname world_with_body = ([ExecPostconf], Ret "mail.example.org") /\
  getHostname world_without_postconf =
  ([ExecPostconf;
    Stderr ("warning: unable to get hostname from postfix (" ++
            "exec: postconf: not found" ++ ")" ++ nl)%string],
   Ret "localhost").
Proof.
  split.
  - refine (proj2 (getHostname_result world_with_body)
              [] "mail.example.org" [LF] eq_refl eq_refl eq_refl _ _);
      intros c [= <-]; reflexivity.
  - exact (proj1 (getHostname_result world_without_postconf) _ eq_refl).
Defined.

(** ** [main]: a lookup that finds nothing *)

Lemma lookupTCP_500 net addr key msg :
  net addr ("get " ++ key)%string = Replies ("500 " ++ msg)%string ->
  lookupTCP net addr key =
  ([Stderr ("warning: srs: returncode 500 (" ++ msg ++ ")" ++ nl)%string],
   Ret (key, None)).
Proof.
  intros H. unfold lookupTCP. rewrite H.
  change ("500 " ++ msg)%string with (itoa 500 ++ " " ++ msg)%string.
  rewrite ReadCodeLine_single_line by lia. reflexivity.
Qed.

(** X13: when the resolver answers 500 for the address between the
    brackets of the return path, the run goes on: a warning is written to
    stderr and the delivery program is invoked once, with that address
    itself after [-f]. *)
Theorem soft_miss_delivers fl w h buffer rest addr msg :
  has_char "000" (path fl) = false ->
  ReadMessage w = (inr h, buffer, rest) ->
  Get h (rpHeader fl) = ("<" ++ addr ++ ">")%string ->
  srs w (srsAddr fl) ("get " ++ addr)%string = Replies ("500 " ++ msg)%string ->
  dryRun fl = false ->
  In (Stderr ("warning: srs: returncode 500 (" ++ msg ++ ")" ++ nl)%string)
     (trace (main fl w)) /\
  exists data,
    filter is_delivery (trace (main fl w)) =
    [ExecSendmail (sendmailPath fl)
       (["-i"; "-f"; addr; "-F"; fromName_of h] ++ Args fl) data].
Proof.
  intros Hpath HRM Hv Hnet Hdry.
  assert (Hkey : strip_ends (Get h (rpHeader fl)) = ret addr)
    by (rewrite Hv; apply strip_ends_middle).
  pose proof (lookupTCP_500 _ _ _ _ Hnet) as Hlook.
  destruct (main_run fl w h buffer rest addr _ addr Hpath HRM Hkey Hlook)
    as (trH & hostname & head & _ & HdH & _ & Hmain).
  rewrite Hmain, Hdry. unfold trace. cbn [fst]. split.
  - apply in_or_app. right. now left.
  - exists (head ++ concat rest).
    rewrite !filter_app, (no_delivery_filter _ HdH).
    destruct (sendmail_run w _ _ _); reflexivity.
Qed.

Lemma soft_miss_delivers_witness :
  In (Stderr ("warning: srs: returncode 500 (" ++ "anything" ++ ")" ++ nl)%string)
     (trace (main (example_flags false) world_soft_miss)) /\
  exists data,
    filter is_delivery (trace (main (example_flags false) world_soft_miss)) =
    [ExecSendmail "sendmail"
       (["-i"; "-f"; "x@y.com"; "-F"; fromName_of (header_of "<x@y.com>" "Alice")]
        ++ ["user@example.net"]) data].
Proof.
  exact (soft_miss_delivers (example_flags false) world_soft_miss
           (header_of "<x@y.com>" "Alice") message_with_body [] "x@y.com"
           "anything" eq_refl eq_refl eq_refl eq_refl eq_refl).
Defined.
